(** * Sentiment analyzer: a shallow embedding of [sentiment_analyzer.py]

    The development embeds the decision logic of the [SentimentAnalyzer]
    class (keyword adjustment, classification, descriptions, batch scoring
    and summary statistics) and checks the properties stated about it.

    Conventions of the embedding.

    - A Python [str] is a list of Unicode code points ([pystr]).
    - A Python [float] is read as the exact rational it denotes in decimal
      notation ([0.05] is [5/100]); arithmetic and comparisons are exact,
      and [round(x, n)] is rounding to [n] decimals, ties to even.  This
      reading serves the properties that do not depend on the last bits of
      a float.  The percentages of the summary, whose sum does, are also
      modelled as the code computes them: each operation returns the
      nearest binary64 number ([binary64], [round64]).
    - The two library capabilities the class calls, [str.lower] and
      [TextBlob(text).sentiment], are parameters of the embedding; the
      second may raise, which is the [None] outcome.
    - [datetime.datetime.now()] is an input of the functions that read it.
    - Exceptions are values of type [exn]; a computation that may raise has
      type [exn + A].  What [print] writes is returned as a list. *)

From Stdlib Require Import List ZArith QArith Qround Qabs Qminmax.
From Stdlib Require Import Lia Lqa String Ascii Bool Arith.
From Stdlib Require Import Permutation Sorted Qpower.
Import ListNotations.

Local Open Scope Q_scope.

(** ** Python values *)

Definition pystr := list N.

(** The code points of an ASCII literal. *)
Definition py (s : string) : pystr :=
  map N_of_ascii (list_ascii_of_string s).

(** U+00E1, U+00E9 and U+00ED: the accented letters of the lexicon. *)
Definition a_acute : N := 225.
Definition e_acute : N := 233.
Definition i_acute : N := 237.

(** [str.isspace] on one code point: the white-space table of CPython. *)
Definition isspace (c : N) : bool :=
  ((9 <=? c) && (c <=? 13) || (28 <=? c) && (c <=? 32)
   || (c =? 133) || (c =? 160) || (c =? 5760)
   || (8192 <=? c) && (c <=? 8202)
   || (c =? 8232) || (c =? 8233) || (c =? 8239) || (c =? 8287)
   || (c =? 12288))%N.

Fixpoint lstrip (s : pystr) : pystr :=
  match s with
  | [] => []
  | c :: rest => if isspace c then lstrip rest else s
  end.

Definition rstrip (s : pystr) : pystr := rev (lstrip (rev s)).

(** [s.strip()] *)
Definition strip (s : pystr) : pystr := rstrip (lstrip s).

(** Truth value of a string: [if s:] holds when [s] is not empty. *)
Definition truthy (s : pystr) : bool :=
  match s with [] => false | _ :: _ => true end.

Fixpoint startswith (s word : pystr) : bool :=
  match word, s with
  | [], _ => true
  | _ :: _, [] => false
  | w :: word', c :: s' => (w =? c)%N && startswith s' word'
  end.

(** [word in s]: [word] occurs in [s] as a substring. *)
Fixpoint contains (word s : pystr) : bool :=
  startswith s word ||
  match s with
  | [] => false
  | _ :: s' => contains word s'
  end.

(** [enumerate(l, start)] *)
Definition enumerate {A : Type} (start : nat) (l : list A) : list (nat * A) :=
  combine (seq start (List.length l)) l.

(** ** Numbers *)

Definition Qltb (x y : Q) : bool := negb (Qle_bool y x).
Definition Qgtb (x y : Q) : bool := Qltb y x.
Definition Qgeb (x y : Q) : bool := Qle_bool y x.

Definition Q_of_nat (n : nat) : Q := inject_Z (Z.of_nat n).

(** Nearest integer, ties to the even neighbour. *)
Definition round_half_even (x : Q) : Z :=
  let f := Qfloor x in
  let r := x - inject_Z f in
  if Qltb r (1 # 2) then f
  else if Qltb (1 # 2) r then (f + 1)%Z
  else if Z.even f then f else (f + 1)%Z.

(** [round(x, ndigits)] *)
Definition pyround (x : Q) (ndigits : nat) : Q :=
  let scale := inject_Z (10 ^ Z.of_nat ndigits) in
  inject_Z (round_half_even (x * scale)) / scale.

Fixpoint Qsum (l : list Q) : Q :=
  match l with
  | [] => 0
  | x :: l' => x + Qsum l'
  end.

(** ** Exceptions *)

Inductive exn : Type :=
| ValueError          (* raise ValueError("El texto no puede estar vacio") *)
| ScorerError         (* whatever escapes from TextBlob *)
| FileNotFoundError   (* the path does not exist *)
| ReadError           (* Exception("Error leyendo el archivo: ...") *)
| ZeroDivisionError.

Definition ret {A : Type} (a : A) : exn + A := inr a.

Definition bind {A B : Type} (m : exn + A) (k : A -> exn + B) : exn + B :=
  match m with
  | inl e => inl e
  | inr a => k a
  end.

Notation "x <- m ;; k" := (bind m (fun x => k))
  (at level 61, m at next level, right associativity).

(** [a / b] on floats *)
Definition pydiv (a b : Q) : exn + Q :=
  if Qeq_bool b 0 then inl ZeroDivisionError else ret (a / b).

(** ** Records *)

(** The dictionary built by [analyze_text]; [line_number] is the key that
    [analyze_file] adds. *)
Record AnalysisResult : Type := mkResult {
  text : pystr;
  polarity : Q;
  subjectivity : Q;
  sentiment : string;
  timestamp : Z;
  line_number : option nat
}.

(** The non-empty dictionary built by [get_analysis_summary]. *)
Record AnalysisSummary : Type := mkSummary {
  total_texts : nat;
  positive_count : nat;
  negative_count : nat;
  neutral_count : nat;
  positive_percentage : Q;
  negative_percentage : Q;
  neutral_percentage : Q;
  average_polarity : Q;
  average_subjectivity : Q
}.

(** What [open(file_path)] finds. *)
Inductive source : Type :=
| Missing
| Unreadable
| Lines (lines : list pystr).

Module SentimentAnalyzer.

Definition positive_keywords : list pystr :=
  [ py "excelente"; py "fant" ++ a_acute :: py "stico";
    py "incre" ++ i_acute :: py "ble"; py "maravilloso"; py "perfecto";
    py "genial"; py "bueno"; py "buena"; py "amor"; py "feliz"; py "alegre";
    py "contento"; py "satisfecho"; py "encanta"; py "gusta"; py "hermoso";
    py "bella"; e_acute :: py "xito" ].

Definition negative_keywords : list pystr :=
  [ py "terrible"; py "horrible"; py "malo"; py "mala";
    py "p" ++ e_acute :: py "simo"; py "odio"; py "detesto"; py "triste";
    py "enojado"; py "molesto"; py "frustrado"; py "decepcionado";
    py "error"; py "problema"; py "falla"; py "defecto"; py "disgusto";
    py "desagradable" ].

(** [sum(1 for word in keywords if word in text_lower)] *)
Definition keyword_count (keywords : list pystr) (text_lower : pystr) : nat :=
  list_sum (map (fun _ => 1%nat)
                (filter (fun word => contains word text_lower) keywords)).

(** [amplify] is the second block of the method, reached when the first
    block returns nothing: the base polarity has magnitude 0.1 or more, or
    the two counts are equal. *)
Definition _adjust_polarity_with_keywords
    (text_lower : pystr) (original_polarity : Q) : Q :=
  let positive_count := keyword_count positive_keywords text_lower in
  let negative_count := keyword_count negative_keywords text_lower in
  let amplify :=
    if (0 <? positive_count)%nat && Qgtb original_polarity 0 then
      Qmin 1.0 (original_polarity + Q_of_nat positive_count * 0.2)
    else if (0 <? negative_count)%nat && Qltb original_polarity 0 then
      Qmax (-1.0) (original_polarity - Q_of_nat negative_count * 0.2)
    else original_polarity in
  if Qltb (Qabs original_polarity) 0.1 then
    if (negative_count <? positive_count)%nat then
      0.3 + Q_of_nat positive_count * 0.1
    else if (positive_count <? negative_count)%nat then
      -0.3 - Q_of_nat negative_count * 0.1
    else amplify
  else amplify.

Definition _classify_sentiment (polarity : Q) : string :=
  if Qgtb polarity 0.05 then "POSITIVO"%string
  else if Qltb polarity (-0.05) then "NEGATIVO"%string
  else "NEUTRAL"%string.

Definition get_polarity_description (polarity : Q) : string :=
  let abs_polarity := Qabs polarity in
  let intensity :=
    if Qgeb abs_polarity 0.7 then Some "Muy"%string
    else if Qgeb abs_polarity 0.3 then Some "Moderadamente"%string
    else if Qgeb abs_polarity 0.05 then Some "Ligeramente"%string
    else None in
  match intensity with
  | None => "Neutral"%string
  | Some intensity =>
      let sentiment_type :=
        if Qgtb polarity 0 then "positivo"%string else "negativo"%string in
      (intensity ++ " " ++ sentiment_type)%string
  end.

Definition get_subjectivity_description (subjectivity : Q) : string :=
  if Qgeb subjectivity 0.7 then "Muy subjetivo"%string
  else if Qgeb subjectivity 0.4 then "Moderadamente subjetivo"%string
  else if Qgeb subjectivity 0.1 then "Ligeramente subjetivo"%string
  else "Objetivo"%string.

Section Capabilities.

(** [str.lower] and [TextBlob(text).sentiment] as (polarity, subjectivity). *)
Variable lower : pystr -> pystr.
Variable sentiment_of : pystr -> option (Q * Q).

Definition analyze_text (text : pystr) (now : Z) : exn + AnalysisResult :=
  if negb (truthy text) || negb (truthy (strip text)) then inl ValueError
  else
    match sentiment_of text with
    | None => inl ScorerError
    | Some (polarity, subjectivity) =>
        let adjusted_polarity :=
          _adjust_polarity_with_keywords (lower text) polarity in
        let sentiment_label := _classify_sentiment adjusted_polarity in
        ret (mkResult (strip text)
                      (pyround adjusted_polarity 3)
                      (pyround subjectivity 3)
                      sentiment_label
                      now
                      None)
    end.

(** [result['line_number'] = line_num] *)
Definition set_line_number (result : AnalysisResult) (line_num : nat)
  : AnalysisResult :=
  mkResult (text result) (polarity result) (subjectivity result)
           (sentiment result) (timestamp result) (Some line_num).

(** One iteration of the loop of [analyze_file]: [results] is the list
    appended to, [printed] the line numbers and errors written by [print];
    [clock n] is the time read while line [n] is analysed. *)
Definition analyze_line (clock : nat -> Z)
    (state : list AnalysisResult * list (nat * exn))
    (numbered_line : nat * pystr)
  : list AnalysisResult * list (nat * exn) :=
  let (results, printed) := state in
  let (line_num, line) := numbered_line in
  let line := strip line in
  if truthy line then
    match analyze_text line (clock line_num) with
    | inr result => (results ++ [set_line_number result line_num], printed)
    | inl e => (results, printed ++ [(line_num, e)])
    end
  else (results, printed).

Definition analyze_file (clock : nat -> Z) (file : source)
  : (exn + list AnalysisResult) * list (nat * exn) :=
  match file with
  | Missing => (inl FileNotFoundError, [])
  | Unreadable => (inl ReadError, [])
  | Lines lines =>
      let (results, printed) :=
        fold_left (analyze_line clock) (enumerate 1 lines) ([], []) in
      (ret results, printed)
  end.

End Capabilities.

Definition count_label (label : string) (results : list AnalysisResult) : nat :=
  list_sum (map (fun _ => 1%nat)
                (filter (fun r => String.eqb (sentiment r) label) results)).

(** [None] is the empty dictionary returned for no results. *)
Definition get_analysis_summary (results : list AnalysisResult)
  : exn + option AnalysisSummary :=
  match results with
  | [] => ret None
  | _ :: _ =>
      let total := List.length results in
      let positive := count_label "POSITIVO" results in
      let negative := count_label "NEGATIVO" results in
      let neutral := count_label "NEUTRAL" results in
      avg_polarity <- pydiv (Qsum (map polarity results)) (Q_of_nat total) ;;
      avg_subjectivity <-
        pydiv (Qsum (map subjectivity results)) (Q_of_nat total) ;;
      positive_ratio <- pydiv (Q_of_nat positive) (Q_of_nat total) ;;
      negative_ratio <- pydiv (Q_of_nat negative) (Q_of_nat total) ;;
      neutral_ratio <- pydiv (Q_of_nat neutral) (Q_of_nat total) ;;
      ret (Some (mkSummary total positive negative neutral
                   (pyround (positive_ratio * 100) 1)
                   (pyround (negative_ratio * 100) 1)
                   (pyround (neutral_ratio * 100) 1)
                   (pyround avg_polarity 3)
                   (pyround avg_subjectivity 3)))
  end.

End SentimentAnalyzer.

Import SentimentAnalyzer.

(** A lower-casing function for the examples: Basic Latin and Latin-1
    capitals are shifted to their small letters, other code points are kept. *)
Definition latin1_lower (s : pystr) : pystr :=
  map (fun c =>
         if ((65 <=? c) && (c <=? 90)
             || (192 <=? c) && (c <=? 222) && negb (c =? 215))%N
         then (c + 32)%N else c) s.

(** A scorer that finds no signal: polarity and subjectivity 0.0. *)
Definition no_signal (_ : pystr) : option (Q * Q) := Some (0.0, 0.0).

(** A scorer that returns the same scores for every text. *)
Definition constant_scorer (p s : Q) (_ : pystr) : option (Q * Q) :=
  Some (p, s).

(** ** Inputs used in the examples *)

(** Eight keywords of the positive lexicon and none of the negative one. *)
Definition eight_keywords : pystr :=
  py "excelente maravilloso perfecto feliz alegre contento satisfecho hermoso".

(** One positive and one negative keyword. *)
Definition bueno_malo : pystr := py "bueno malo".

(** No keyword at all. *)
Definition hola : pystr := py "hola".

(** A line as read from a file: its text and the newline. *)
Definition file_line (s : string) : pystr := py s ++ [10%N].

(** Four lines, the second and third blank. *)
Definition four_lines : list pystr :=
  [file_line "hola"; file_line ""; file_line "   "; file_line "bueno malo"].

(** Four lines, the second blank; the third makes [raises_on hola] raise. *)
Definition lines_with_failure : list pystr :=
  [file_line "bueno"; file_line ""; file_line "hola"; file_line "malo"].

(** A scorer that raises on every text in which [bad] occurs. *)
Definition raises_on (bad : pystr) (s : pystr) : option (Q * Q) :=
  if contains bad s then None else Some (0.0, 0.0).

Definition midnight (_ : nat) : Z := 0%Z.

(** One result with each label. *)
Definition one_of_each : list AnalysisResult :=
  [ mkResult (py "bueno") 0.4 0.0 "POSITIVO" 0 None;
    mkResult (py "malo") (-0.4) 0.0 "NEGATIVO" 0 None;
    mkResult hola 0.0 0.0 "NEUTRAL" 0 None ].

(** A text is blank when each of its characters is white space. *)
Definition blank (s : pystr) : bool := forallb isspace s.

Definition is_label (s : string) : Prop :=
  s = "POSITIVO"%string \/ s = "NEGATIVO"%string \/ s = "NEUTRAL"%string.

(** What the loop of [analyze_file] appends for one numbered line. *)
Definition line_results (lower : pystr -> pystr)
    (sentiment_of : pystr -> option (Q * Q)) (clock : nat -> Z)
    (numbered_line : nat * pystr) : list AnalysisResult :=
  let (line_num, line) := numbered_line in
  if truthy (strip line) then
    match analyze_text lower sentiment_of (strip line) (clock line_num) with
    | inr result => [set_line_number result line_num]
    | inl _ => []
    end
  else [].

(** What it prints for one numbered line. *)
Definition line_reports (lower : pystr -> pystr)
    (sentiment_of : pystr -> option (Q * Q)) (clock : nat -> Z)
    (numbered_line : nat * pystr) : list (nat * exn) :=
  let (line_num, line) := numbered_line in
  if truthy (strip line) then
    match analyze_text lower sentiment_of (strip line) (clock line_num) with
    | inr _ => []
    | inl e => [(line_num, e)]
    end
  else [].

(** ** Vocabulary of the further properties *)

(** The descriptions [get_polarity_description] gives to a polarity of 0.05
    or more, and to one of -0.05 or less. *)
Definition positive_descriptions : list string :=
  ["Ligeramente positivo"; "Moderadamente positivo"; "Muy positivo"]%string.

Definition negative_descriptions : list string :=
  ["Ligeramente negativo"; "Moderadamente negativo"; "Muy negativo"]%string.

(** A result and a printed report moved [offset] lines down the file. *)
Definition shift_result (offset : nat) (r : AnalysisResult) : AnalysisResult :=
  mkResult (text r) (polarity r) (subjectivity r) (sentiment r) (timestamp r)
           (option_map (Nat.add offset) (line_number r)).

Definition shift_report (offset : nat) (report : nat * exn) : nat * exn :=
  (offset + fst report, snd report)%nat.

(** The line numbers of a list of results, where present. *)
Definition line_numbers (results : list AnalysisResult) : list (option nat) :=
  map line_number results.

(** Two results in two orders. *)
Definition two_results : list AnalysisResult :=
  [ mkResult (py "bueno") 0.4 0.5 "POSITIVO" 0 None;
    mkResult (py "malo") (-0.5) 0.7 "NEGATIVO" 0 None ].

Definition two_results_swapped : list AnalysisResult :=
  [ mkResult (py "malo") (-0.5) 0.7 "NEGATIVO" 0 None;
    mkResult (py "bueno") 0.4 0.5 "POSITIVO" 0 None ].

(** A result whose label is none of the three. *)
Definition unlabelled : list AnalysisResult :=
  [ mkResult hola 0.0 0.0 "MIXTO" 0 None ].

(** Every keyword of a lexicon, each followed by a space. *)
Definition all_keywords (keywords : list pystr) : pystr :=
  List.concat (map (fun word => word ++ [32%N]) keywords).

(** ** The prompt of [utils.py] *)

(** What the keyboard delivers to one call of [input]: a line, or Ctrl-C
    ([KeyboardInterrupt]). *)
Inductive keystroke : Type :=
| Typed (line : pystr)
| Interrupt.

(** The [input_type] argument: "string", "int", "file", or anything else. *)
Inductive input_type : Type :=
| StringInput
| IntInput
| FileInput
| OtherInput.

(** What [get_user_input] returns: a string, an integer or [None]. *)
Inductive user_value : Type :=
| UserText (s : pystr)
| UserInt (z : Z)
| UserNone.

(** What it prints. *)
Inductive console_message : Type :=
| EmptyEntryError          (* "Error: La entrada no puede estar vacia" *)
| InvalidEntryError        (* "Error: Entrada invalida. Intente nuevamente." *)
| CancelledMessage         (* "Operacion cancelada por el usuario" *)
| FileMessage (path : pystr).  (* an error of validate_file_path on a path *)

Section Console.

(** [int(s)], [None] when it raises [ValueError]; and [validate_file_path],
    with what it prints. *)
Variable parse_int : pystr -> option Z.
Variable validate_file_path : pystr -> bool * list console_message.

(** The loop of [get_user_input] on the keystrokes still to come.  The
    outcome is [None] when [input] finds the keyboard closed ([EOFError],
    which the function does not catch); otherwise the value returned, what
    was printed and the keystrokes left. *)
Fixpoint get_user_input (keyboard : list keystroke) (kind : input_type)
    (printed : list console_message)
  : option (user_value * list console_message * list keystroke) :=
  match keyboard with
  | [] => None
  | Interrupt :: rest => Some (UserNone, printed ++ [CancelledMessage], rest)
  | Typed line :: rest =>
      let user_input := strip line in
      match kind with
      | StringInput =>
          if truthy user_input then Some (UserText user_input, printed, rest)
          else get_user_input rest kind (printed ++ [EmptyEntryError])
      | IntInput =>
          match parse_int user_input with
          | Some z => Some (UserInt z, printed, rest)
          | None => get_user_input rest kind (printed ++ [InvalidEntryError])
          end
      | FileInput =>
          let (valid, messages) := validate_file_path user_input in
          if valid then Some (UserText user_input, printed ++ messages, rest)
          else get_user_input rest kind (printed ++ messages)
      | OtherInput => get_user_input rest kind printed
      end
  end.

End Console.

(** An [int] for the examples: it reads nothing. *)
Definition no_int (_ : pystr) : option Z := None.

(** A validation for the examples: it accepts nothing. *)
Definition no_file (path : pystr) : bool * list console_message :=
  (false, [FileMessage path]).

(** ** Binary64 arithmetic

    Where a property depends on how floats round (the percentages of the
    summary), the float operations are modelled as they are computed: a
    float is the rational it holds, and each operation returns the binary64
    number nearest to the exact result. *)

(** For a positive [x], the integer [e] with [2^e <= x < 2^(e+1)]. *)
Definition binade (x : Q) : Z :=
  let e := (Z.log2 (Qnum x) - Z.log2 (Zpos (Qden x)))%Z in
  if Qle_bool (2 ^ e) x then e else (e - 1)%Z.

(** The distance between the binary64 numbers around [x]: 53 significant
    bits, and [2^-1074] for the subnormal numbers below [2^-1022]. *)
Definition spacing (x : Q) : Q :=
  2 ^ (Z.max (binade (Qabs x)) (-1022) - 52).

(** The binary64 number nearest to [x], ties to the even significand, for
    [x] below [2^1024] in magnitude (above it a float operation overflows;
    no value rounded below exceeds 100). *)
Definition binary64 (x : Q) : Q :=
  if Qeq_bool x 0 then 0
  else inject_Z (round_half_even (x / spacing x)) * spacing x.

(** [round(x, ndigits)] on a float [x]: the decimal with [ndigits] digits
    nearest to the value [x] holds, ties to even, then the float nearest to
    that decimal. *)
Definition round64 (x : Q) (ndigits : nat) : Q :=
  binary64 (pyround x ndigits).

(** [a / b] on two ints: the float nearest to the quotient. *)
Definition pydiv64 (a b : nat) : exn + Q :=
  if Qeq_bool (Q_of_nat b) 0 then inl ZeroDivisionError
  else ret (binary64 (Q_of_nat a / Q_of_nat b)).

(** The entries [positive_percentage], [negative_percentage] and
    [neutral_percentage] of [get_analysis_summary] as the floats the code
    computes: [round((count / total) * 100, 1)]. *)
Definition get_analysis_percentages64 (results : list AnalysisResult)
  : exn + option (Q * Q * Q) :=
  match results with
  | [] => ret None
  | _ :: _ =>
      let total := List.length results in
      let positive := count_label "POSITIVO" results in
      let negative := count_label "NEGATIVO" results in
      let neutral := count_label "NEUTRAL" results in
      positive_ratio <- pydiv64 positive total ;;
      negative_ratio <- pydiv64 negative total ;;
      neutral_ratio <- pydiv64 neutral total ;;
      ret (Some (round64 (binary64 (positive_ratio * 100)) 1,
                 round64 (binary64 (negative_ratio * 100)) 1,
                 round64 (binary64 (neutral_ratio * 100)) 1))
  end.

(** [a + b] on two floats. *)
Definition add64 (a b : Q) : Q := binary64 (a + b).

(** * Properties *)

(** ** Comparisons *)

Lemma Qltb_lt (x y : Q) : Qltb x y = true <-> x < y.
Proof.
  unfold Qltb. rewrite negb_true_iff.
  split; intro H.
  - apply Qnot_le_lt. intro Hle. apply Qle_bool_iff in Hle. congruence.
  - destruct (Qle_bool y x) eqn:E; [|reflexivity].
    apply Qle_bool_iff in E. exfalso. apply (Qlt_not_le _ _ H E).
Qed.

Lemma Qltb_ge (x y : Q) : Qltb x y = false <-> y <= x.
Proof.
  unfold Qltb. rewrite negb_false_iff. apply Qle_bool_iff.
Qed.

Lemma Qgtb_gt (x y : Q) : Qgtb x y = true <-> y < x.
Proof. apply Qltb_lt. Qed.

Lemma Qgtb_le (x y : Q) : Qgtb x y = false <-> x <= y.
Proof. apply Qltb_ge. Qed.

Lemma Qgeb_ge (x y : Q) : Qgeb x y = true <-> y <= x.
Proof. apply Qle_bool_iff. Qed.

Ltac bool_cmp :=
  repeat match goal with
  | H : Qltb _ _ = true |- _ => apply Qltb_lt in H
  | H : Qltb _ _ = false |- _ => apply Qltb_ge in H
  | H : Qgtb _ _ = true |- _ => apply Qgtb_gt in H
  | H : Qgtb _ _ = false |- _ => apply Qgtb_le in H
  | H : Qgeb _ _ = true |- _ => apply Qgeb_ge in H
  end.

(** ** Stripping *)

Lemma truthy_false (s : pystr) : truthy s = false <-> s = [].
Proof. destruct s; simpl; split; congruence. Qed.

Lemma truthy_true (s : pystr) : truthy s = true <-> s <> [].
Proof. destruct s; simpl; split; congruence. Qed.

Lemma lstrip_nil_iff (s : pystr) : lstrip s = [] <-> blank s = true.
Proof.
  unfold blank. induction s as [|c s IH]; simpl.
  - tauto.
  - destruct (isspace c); simpl; [exact IH|]. split; congruence.
Qed.

Lemma blank_lstrip (s : pystr) : blank (lstrip s) = blank s.
Proof.
  unfold blank. induction s as [|c s IH]; simpl; [reflexivity|].
  destruct (isspace c) eqn:E; simpl; [exact IH|]. now rewrite E.
Qed.

Lemma blank_rev (s : pystr) : blank (rev s) = blank s.
Proof.
  unfold blank. induction s as [|c s IH]; simpl; [reflexivity|].
  rewrite forallb_app, IH. simpl. rewrite andb_true_r. apply andb_comm.
Qed.

Lemma rev_nil_iff {A : Type} (l : list A) : rev l = [] <-> l = [].
Proof.
  split; intro H; [|now subst].
  apply (f_equal (@rev A)) in H. now rewrite rev_involutive in H.
Qed.

Lemma rstrip_nil_iff (s : pystr) : rstrip s = [] <-> blank s = true.
Proof.
  unfold rstrip. rewrite <- (blank_rev s), <- lstrip_nil_iff.
  apply (rev_nil_iff (lstrip (rev s))).
Qed.

Lemma blank_rstrip (s : pystr) : blank (rstrip s) = blank s.
Proof.
  unfold rstrip. now rewrite blank_rev, blank_lstrip, blank_rev.
Qed.

Lemma strip_nil_iff (s : pystr) : strip s = [] <-> blank s = true.
Proof.
  unfold strip. rewrite <- (blank_lstrip s). apply rstrip_nil_iff.
Qed.

Lemma blank_strip (s : pystr) : blank (strip s) = blank s.
Proof. unfold strip. now rewrite blank_rstrip, blank_lstrip. Qed.

Lemma truthy_strip_blank (s : pystr) : truthy (strip s) = negb (blank s).
Proof.
  destruct (blank s) eqn:E; simpl.
  - apply truthy_false. now apply strip_nil_iff.
  - apply truthy_true. intro H. apply strip_nil_iff in H. congruence.
Qed.

Lemma truthy_of_strip (s : pystr) : truthy (strip s) = true -> truthy s = true.
Proof.
  destruct s; [|reflexivity]. intro H. exact H.
Qed.

Lemma lstrip_idem (s : pystr) : lstrip (lstrip s) = lstrip s.
Proof.
  induction s as [|c s IH]; simpl; [reflexivity|].
  destruct (isspace c) eqn:E; [exact IH|]. simpl. now rewrite E.
Qed.

Lemma lstrip_head (s : pystr) :
  lstrip s = [] \/ exists c rest, lstrip s = c :: rest /\ isspace c = false.
Proof.
  induction s as [|c s IH]; simpl; [now left|].
  destruct (isspace c) eqn:E; [exact IH|]. right. now exists c, s.
Qed.

Lemma lstrip_snoc (s : pystr) (c : N) :
  isspace c = false -> lstrip (s ++ [c]) = lstrip s ++ [c].
Proof.
  intro Hc. induction s as [|d s IH]; simpl.
  - now rewrite Hc.
  - destruct (isspace d); [exact IH | reflexivity].
Qed.

Lemma rstrip_cons (c : N) (s : pystr) :
  isspace c = false -> rstrip (c :: s) = c :: rstrip s.
Proof.
  intro Hc. unfold rstrip. simpl.
  rewrite (lstrip_snoc _ _ Hc), rev_app_distr. reflexivity.
Qed.

Lemma rstrip_idem (s : pystr) : rstrip (rstrip s) = rstrip s.
Proof.
  unfold rstrip. now rewrite rev_involutive, lstrip_idem.
Qed.

Lemma strip_idem (s : pystr) : strip (strip s) = strip s.
Proof.
  unfold strip.
  destruct (lstrip_head s) as [-> | (c & rest & -> & Hc)]; [reflexivity|].
  rewrite (rstrip_cons _ _ Hc). simpl. rewrite Hc.
  now rewrite (rstrip_cons _ _ Hc), rstrip_idem.
Qed.

(** ** Rounding *)

Lemma round_half_even_cases (x : Q) :
  round_half_even x = Qfloor x \/ round_half_even x = (Qfloor x + 1)%Z.
Proof.
  unfold round_half_even.
  destruct (Qltb _ _); [now left|].
  destruct (Qltb _ _); [now right|].
  destruct (Z.even _); [now left | now right].
Qed.

Lemma inject_Z_succ (z : Z) : inject_Z (z + 1) == inject_Z z + 1.
Proof. rewrite inject_Z_plus. reflexivity. Qed.

Lemma floor_bounds (x : Q) :
  inject_Z (Qfloor x) <= x /\ x < inject_Z (Qfloor x) + 1.
Proof.
  split; [apply Qfloor_le|].
  pose proof (Qlt_floor x) as H. rewrite inject_Z_succ in H. exact H.
Qed.

Lemma round_half_even_near (x : Q) :
  inject_Z (round_half_even x) - (1 # 2) <= x /\
  x <= inject_Z (round_half_even x) + (1 # 2).
Proof.
  destruct (floor_bounds x) as [Hlo Hhi].
  unfold round_half_even.
  destruct (Qltb (x - inject_Z (Qfloor x)) (1 # 2)) eqn:E1.
  { bool_cmp. split; lra. }
  destruct (Qltb (1 # 2) (x - inject_Z (Qfloor x))) eqn:E2.
  { bool_cmp. rewrite inject_Z_succ. split; lra. }
  bool_cmp.
  destruct (Z.even (Qfloor x)); [|rewrite inject_Z_succ]; split; lra.
Qed.

Lemma round_half_even_mono (x y : Q) :
  x <= y -> (round_half_even x <= round_half_even y)%Z.
Proof.
  intro Hxy.
  pose proof (Qfloor_resp_le _ _ Hxy) as Hf.
  destruct (Z.eq_dec (Qfloor x) (Qfloor y)) as [Heq|Hne].
  - unfold round_half_even. rewrite Heq.
    destruct (Qltb (y - inject_Z (Qfloor y)) (1 # 2)) eqn:Y1.
    { assert (Qltb (x - inject_Z (Qfloor y)) (1 # 2) = true) as ->.
      { bool_cmp. apply Qltb_lt. lra. }
      lia. }
    destruct (Qltb (1 # 2) (y - inject_Z (Qfloor y))) eqn:Y2.
    { destruct (Qltb (x - _) _); [lia|].
      destruct (Qltb _ (x - _)); [lia|].
      destruct (Z.even _); lia. }
    destruct (Qltb (x - inject_Z (Qfloor y)) (1 # 2)) eqn:X1.
    { destruct (Z.even _); lia. }
    assert (Qltb (1 # 2) (x - inject_Z (Qfloor y)) = false) as ->.
    { bool_cmp. apply Qltb_ge. lra. }
    lia.
  - destruct (round_half_even_cases x) as [-> | ->];
    destruct (round_half_even_cases y) as [-> | ->]; lia.
Qed.

Lemma scale_pos (n : nat) : 0 < inject_Z (10 ^ Z.of_nat n).
Proof.
  change 0 with (inject_Z 0). rewrite <- Zlt_Qlt.
  apply Z.pow_pos_nonneg; lia.
Qed.

Lemma pyround_scaled (x : Q) (n : nat) :
  pyround x n * inject_Z (10 ^ Z.of_nat n) ==
  inject_Z (round_half_even (x * inject_Z (10 ^ Z.of_nat n))).
Proof.
  unfold pyround. pose proof (scale_pos n) as Hs.
  field. intro H. rewrite H in Hs. apply (Qlt_irrefl 0 Hs).
Qed.

Lemma pyround_mono (x y : Q) (n : nat) :
  x <= y -> pyround x n <= pyround y n.
Proof.
  intro Hxy. pose proof (scale_pos n) as Hs.
  apply (Qmult_le_r _ _ _ Hs). rewrite !pyround_scaled.
  rewrite <- Zle_Qle. apply round_half_even_mono.
  apply Qmult_le_compat_r; [exact Hxy | apply Qlt_le_weak, Hs].
Qed.

(** ** Classification *)

Lemma classify_sentiment_label (p : Q) : is_label (_classify_sentiment p).
Proof.
  unfold _classify_sentiment, is_label.
  destruct (Qgtb p 0.05); [tauto|]. destruct (Qltb p (-0.05)); tauto.
Qed.

(** C4: the classification is total; a polarity above 0.05 is POSITIVO, one
    below -0.05 is NEGATIVO, every other polarity is NEUTRAL, and so are the
    two thresholds 0.05 and -0.05 themselves. *)
Theorem classify_sentiment_thresholds (p : Q) :
  is_label (_classify_sentiment p) /\
  (0.05 < p -> _classify_sentiment p = "POSITIVO"%string) /\
  (p < -0.05 -> _classify_sentiment p = "NEGATIVO"%string) /\
  (~ 0.05 < p -> ~ p < -0.05 -> _classify_sentiment p = "NEUTRAL"%string) /\
  _classify_sentiment 0.05 = "NEUTRAL"%string /\
  _classify_sentiment (-0.05) = "NEUTRAL"%string.
Proof.
  split; [apply classify_sentiment_label|].
  unfold _classify_sentiment.
  repeat split; try reflexivity.
  - intro H. apply Qgtb_gt in H. now rewrite H.
  - intro H.
    destruct (Qgtb p 0.05) eqn:E; [bool_cmp; lra|].
    apply Qltb_lt in H. now rewrite H.
  - intros Hp Hn.
    destruct (Qgtb p 0.05) eqn:E1; [bool_cmp; contradiction|].
    destruct (Qltb p (-0.05)) eqn:E2; [bool_cmp; contradiction|].
    reflexivity.
Qed.

Lemma classify_sentiment_thresholds_witness :
  _classify_sentiment 0.5 = "POSITIVO"%string /\
  _classify_sentiment (-0.5) = "NEGATIVO"%string /\
  _classify_sentiment 0.01 = "NEUTRAL"%string.
Proof.
  split; [|split].
  - apply (proj1 (proj2 (classify_sentiment_thresholds 0.5))).
    vm_compute. reflexivity.
  - apply (proj1 (proj2 (proj2 (classify_sentiment_thresholds (-0.5))))).
    vm_compute. reflexivity.
  - apply (proj1 (proj2 (proj2 (proj2 (classify_sentiment_thresholds 0.01)))));
      vm_compute; intro H; discriminate H.
Defined.

(** C10: at the polarities 0.05 and -0.05 the label is NEUTRAL while the
    intensity description is "Ligeramente positivo" / "Ligeramente negativo";
    a result of [analyze_text] shows both at once. *)
Theorem neutral_label_with_slight_description :
  _classify_sentiment 0.05 = "NEUTRAL"%string /\
  get_polarity_description 0.05 = "Ligeramente positivo"%string /\
  _classify_sentiment (-0.05) = "NEUTRAL"%string /\
  get_polarity_description (-0.05) = "Ligeramente negativo"%string /\
  exists r,
    analyze_text latin1_lower (constant_scorer 0.05 0.0) hola 0 = inr r /\
    sentiment r = "NEUTRAL"%string /\
    get_polarity_description (polarity r) = "Ligeramente positivo"%string.
Proof.
  split; [vm_compute; reflexivity|].
  split; [vm_compute; reflexivity|].
  split; [vm_compute; reflexivity|].
  split; [vm_compute; reflexivity|].
  eexists. split; [vm_compute; reflexivity|].
  split; vm_compute; reflexivity.
Qed.

(** ** Keyword adjustment *)

(** With a base polarity in range and at most seven keywords matched on
    either side, the adjusted polarity stays in [-1, 1]: the amplifying
    branches clamp, the no-signal branch does not need to yet. *)
Lemma adjusted_polarity_in_range_up_to_seven (text_lower : pystr) (base : Q) :
  -1 <= base <= 1 ->
  (keyword_count positive_keywords text_lower <= 7)%nat ->
  (keyword_count negative_keywords text_lower <= 7)%nat ->
  -1 <= _adjust_polarity_with_keywords text_lower base <= 1.
Proof.
  intros Hb Hp Hn. unfold _adjust_polarity_with_keywords.
  set (pc := keyword_count positive_keywords text_lower) in *.
  set (nc := keyword_count negative_keywords text_lower) in *.
  assert (0 <= Q_of_nat pc <= 7) as HP.
  { unfold Q_of_nat. change 0 with (inject_Z 0). change 7 with (inject_Z 7).
    rewrite <- !Zle_Qle. lia. }
  assert (0 <= Q_of_nat nc <= 7) as HN.
  { unfold Q_of_nat. change 0 with (inject_Z 0). change 7 with (inject_Z 7).
    rewrite <- !Zle_Qle. lia. }
  assert (-1 <=
          (if (0 <? pc)%nat && Qgtb base 0
           then Qmin 1.0 (base + Q_of_nat pc * 0.2)
           else if (0 <? nc)%nat && Qltb base 0
                then Qmax (-1.0) (base - Q_of_nat nc * 0.2)
                else base) <= 1) as Hamp.
  { destruct ((0 <? pc)%nat && Qgtb base 0) eqn:E1.
    - apply andb_true_iff in E1. destruct E1 as [_ E1]. bool_cmp.
      destruct (Q.min_spec 1.0 (base + Q_of_nat pc * 0.2)) as [[_ ->]|[H ->]];
        lra.
    - destruct ((0 <? nc)%nat && Qltb base 0) eqn:E2; [|exact Hb].
      apply andb_true_iff in E2. destruct E2 as [_ E2]. bool_cmp.
      destruct (Q.max_spec (-1.0) (base - Q_of_nat nc * 0.2))
        as [[H ->]|[_ ->]]; lra. }
  destruct (Qltb (Qabs base) 0.1); [|exact Hamp].
  destruct (nc <? pc)%nat; [lra|].
  destruct (pc <? nc)%nat; [lra|exact Hamp].
Qed.

(** C1: with eight positive keywords matched and a base polarity of 0.0 the
    no-signal branch returns 0.3 + 8 * 0.1 = 1.1, and [analyze_text] stores a
    polarity above 1.0. *)
Theorem no_signal_branch_exceeds_one :
  blank eight_keywords = false /\
  keyword_count positive_keywords (latin1_lower eight_keywords) = 8%nat /\
  keyword_count negative_keywords (latin1_lower eight_keywords) = 0%nat /\
  _adjust_polarity_with_keywords (latin1_lower eight_keywords) 0.0 == 1.1 /\
  exists r,
    analyze_text latin1_lower no_signal eight_keywords 0 = inr r /\
    polarity r == 1.1 /\ ~ polarity r <= 1.
Proof.
  split; [vm_compute; reflexivity|].
  split; [vm_compute; reflexivity|].
  split; [vm_compute; reflexivity|].
  split; [vm_compute; reflexivity|].
  eexists. split; [vm_compute; reflexivity|].
  split; [vm_compute; reflexivity|].
  vm_compute. intro H. apply H. reflexivity.
Qed.

(** C2, as stated, fails: with one positive and one negative keyword and a
    base polarity of 0.05 the adjustment returns 0.25. *)
Lemma tied_counts_still_amplify :
  Qabs 0.05 < 0.1 /\
  keyword_count positive_keywords bueno_malo =
    keyword_count negative_keywords bueno_malo /\
  _adjust_polarity_with_keywords bueno_malo 0.05 == 0.25 /\
  ~ _adjust_polarity_with_keywords bueno_malo 0.05 == 0.05.
Proof.
  split; [vm_compute; reflexivity|].
  split; [vm_compute; reflexivity|].
  split; [vm_compute; reflexivity|].
  vm_compute. intro H. discriminate H.
Qed.

(** C2, amended: when the base polarity is below 0.1 in magnitude and the two
    counts are tied, the amplification rule still applies: a positive base
    with a matched keyword is raised by 0.2 per positive keyword (at most to
    1.0), a negative one is lowered by 0.2 per negative keyword (at least to
    -1.0); the base polarity is returned unchanged when no keyword matched
    or the base polarity is zero. *)
Theorem tied_counts_fall_through (text_lower : pystr) (base : Q) :
  Qabs base < 0.1 ->
  keyword_count positive_keywords text_lower =
    keyword_count negative_keywords text_lower ->
  let count := keyword_count positive_keywords text_lower in
  (0 < base -> (0 < count)%nat ->
   _adjust_polarity_with_keywords text_lower base =
     Qmin 1.0 (base + Q_of_nat count * 0.2)) /\
  (base < 0 -> (0 < count)%nat ->
   _adjust_polarity_with_keywords text_lower base =
     Qmax (-1.0) (base - Q_of_nat count * 0.2)) /\
  (count = 0%nat \/ base == 0 ->
   _adjust_polarity_with_keywords text_lower base = base).
Proof.
  intros Habs Htie count. unfold _adjust_polarity_with_keywords.
  rewrite <- Htie. fold count.
  apply Qltb_lt in Habs. rewrite Habs.
  rewrite Nat.ltb_irrefl.
  repeat split.
  - intros Hb Hc. apply Qgtb_gt in Hb. rewrite Hb.
    apply Nat.ltb_lt in Hc. now rewrite Hc.
  - intros Hb Hc.
    assert (Qgtb base 0 = false) as -> by (apply Qgtb_le; lra).
    apply Qltb_lt in Hb. rewrite Hb.
    apply Nat.ltb_lt in Hc. rewrite Hc. now rewrite andb_false_r.
  - intros [Hc | Hb].
    + rewrite Hc. reflexivity.
    + assert (Qgtb base 0 = false) as -> by (apply Qgtb_le; lra).
      assert (Qltb base 0 = false) as -> by (apply Qltb_ge; lra).
      now rewrite !andb_false_r.
Qed.

Lemma tied_counts_fall_through_witness :
  _adjust_polarity_with_keywords bueno_malo 0.05 =
    Qmin 1.0 (0.05 + Q_of_nat 1 * 0.2) /\
  _adjust_polarity_with_keywords bueno_malo (-0.05) =
    Qmax (-1.0) (-0.05 - Q_of_nat 1 * 0.2) /\
  _adjust_polarity_with_keywords hola 0.05 = 0.05.
Proof.
  split; [|split].
  - apply (tied_counts_fall_through bueno_malo 0.05); vm_compute; reflexivity.
  - apply (tied_counts_fall_through bueno_malo (-0.05)); vm_compute;
      reflexivity.
  - apply (tied_counts_fall_through hola 0.05); try (vm_compute; reflexivity).
    left. vm_compute. reflexivity.
Defined.

(** ** Single texts *)

Lemma analyze_text_inr (lower : pystr -> pystr)
    (sentiment_of : pystr -> option (Q * Q)) (txt : pystr) (now : Z)
    (r : AnalysisResult) :
  analyze_text lower sentiment_of txt now = inr r ->
  blank txt = false /\
  exists base subj,
    sentiment_of txt = Some (base, subj) /\
    r = mkResult (strip txt)
          (pyround (_adjust_polarity_with_keywords (lower txt) base) 3)
          (pyround subj 3)
          (_classify_sentiment (_adjust_polarity_with_keywords (lower txt) base))
          now None.
Proof.
  unfold analyze_text. intro H.
  destruct (negb (truthy txt) || negb (truthy (strip txt))) eqn:E;
    [discriminate H|].
  apply orb_false_iff in E. destruct E as [_ E].
  rewrite truthy_strip_blank, negb_involutive in E.
  split; [exact E|].
  destruct (sentiment_of txt) as [[base subj]|]; [|discriminate H].
  exists base, subj. split; [reflexivity|].
  unfold ret in H. now inversion H.
Qed.

Lemma analyze_text_nonblank (lower : pystr -> pystr)
    (sentiment_of : pystr -> option (Q * Q)) (txt : pystr) (now : Z) :
  blank txt = false ->
  analyze_text lower sentiment_of txt now =
    match sentiment_of txt with
    | None => inl ScorerError
    | Some (base, subj) =>
        inr (mkResult (strip txt)
               (pyround (_adjust_polarity_with_keywords (lower txt) base) 3)
               (pyround subj 3)
               (_classify_sentiment
                  (_adjust_polarity_with_keywords (lower txt) base))
               now None)
    end.
Proof.
  intro Hb. unfold analyze_text.
  assert (truthy (strip txt) = true) as Hs
    by (rewrite truthy_strip_blank, Hb; reflexivity).
  rewrite Hs, (truthy_of_strip _ Hs). simpl.
  destruct (sentiment_of txt) as [[base subj]|]; reflexivity.
Qed.

(** C5: [analyze_text] raises the [ValueError] of its guard exactly when the
    text is empty or made of white space only, which is when stripping it
    leaves nothing; on any other text it does not raise it. *)
Theorem analyze_text_rejects_exactly_blank (lower : pystr -> pystr)
    (sentiment_of : pystr -> option (Q * Q)) (txt : pystr) (now : Z) :
  (analyze_text lower sentiment_of txt now = inl ValueError <->
   blank txt = true) /\
  (blank txt = true <-> strip txt = []).
Proof.
  split; [|symmetry; apply strip_nil_iff].
  split.
  - intro H. destruct (blank txt) eqn:E; [reflexivity|].
    rewrite (analyze_text_nonblank _ _ _ _ E) in H.
    destruct (sentiment_of txt) as [[base subj]|]; discriminate H.
  - intro H. unfold analyze_text.
    rewrite truthy_strip_blank, H. simpl. now rewrite orb_true_r.
Qed.

Lemma analyze_text_rejects_exactly_blank_witness :
  analyze_text latin1_lower no_signal (py "   ") 0 = inl ValueError /\
  analyze_text latin1_lower no_signal hola 0 <> inl ValueError.
Proof.
  split.
  - apply (proj2 (proj1 (analyze_text_rejects_exactly_blank
                           latin1_lower no_signal (py "   ") 0))).
    vm_compute. reflexivity.
  - intro H.
    apply (proj1 (proj1 (analyze_text_rejects_exactly_blank
                           latin1_lower no_signal hola 0))) in H.
    vm_compute in H. discriminate H.
Defined.

(** C3, as stated, fails: a base polarity of 0.0504 on a text without
    keywords is labelled POSITIVO and stored as 0.05, which classifies as
    NEUTRAL. *)
Lemma stored_polarity_reclassifies_differently :
  exists r,
    analyze_text latin1_lower (constant_scorer 0.0504 0.0) hola 0 = inr r /\
    sentiment r = "POSITIVO"%string /\
    polarity r == 0.05 /\
    _classify_sentiment (polarity r) = "NEUTRAL"%string /\
    _classify_sentiment (polarity r) <> sentiment r.
Proof.
  eexists. split; [vm_compute; reflexivity|].
  split; [vm_compute; reflexivity|].
  split; [vm_compute; reflexivity|].
  split; [vm_compute; reflexivity|].
  vm_compute. intro H. discriminate H.
Qed.

(** C3, amended: the stored sentiment is the classification of the adjusted
    polarity before it is rounded, and the stored polarity is that value
    rounded to three decimals.  Classifying the stored polarity gives the
    stored sentiment except when the stored polarity is exactly 0.05 with
    the label POSITIVO, or exactly -0.05 with the label NEGATIVO. *)
Theorem sentiment_classifies_unrounded_polarity (lower : pystr -> pystr)
    (sentiment_of : pystr -> option (Q * Q)) (txt : pystr) (now : Z)
    (r : AnalysisResult) :
  analyze_text lower sentiment_of txt now = inr r ->
  exists base subj,
    sentiment_of txt = Some (base, subj) /\
    polarity r = pyround (_adjust_polarity_with_keywords (lower txt) base) 3 /\
    sentiment r =
      _classify_sentiment (_adjust_polarity_with_keywords (lower txt) base) /\
    (_classify_sentiment (polarity r) = sentiment r \/
     (sentiment r = "POSITIVO"%string /\ polarity r == 0.05) \/
     (sentiment r = "NEGATIVO"%string /\ polarity r == -0.05)).
Proof.
  intro H. apply analyze_text_inr in H.
  destruct H as [_ (base & subj & Hs & ->)].
  exists base, subj. simpl.
  split; [exact Hs|]. split; [reflexivity|]. split; [reflexivity|].
  set (adj := _adjust_polarity_with_keywords (lower txt) base).
  assert (pyround 0.05 3 == 0.05) as Hp by (vm_compute; reflexivity).
  assert (pyround (-0.05) 3 == -0.05) as Hn by (vm_compute; reflexivity).
  unfold _classify_sentiment.
  destruct (Qgtb adj 0.05) eqn:A1.
  - bool_cmp.
    pose proof (pyround_mono 0.05 adj 3 (Qlt_le_weak _ _ A1)) as Hm.
    destruct (Qgtb (pyround adj 3) 0.05) eqn:R1; [now left|].
    bool_cmp. right; left. split; [reflexivity|]. lra.
  - destruct (Qltb adj (-0.05)) eqn:A2.
    + bool_cmp.
      pose proof (pyround_mono adj (-0.05) 3 (Qlt_le_weak _ _ A2)) as Hm.
      destruct (Qgtb (pyround adj 3) 0.05) eqn:R1; [bool_cmp; lra|].
      destruct (Qltb (pyround adj 3) (-0.05)) eqn:R2; [now left|].
      bool_cmp. right; right. split; [reflexivity|]. lra.
    + bool_cmp.
      pose proof (pyround_mono adj 0.05 3 A1) as Hm1.
      pose proof (pyround_mono (-0.05) adj 3 A2) as Hm2.
      assert (Qgtb (pyround adj 3) 0.05 = false) as ->
        by (apply Qgtb_le; lra).
      assert (Qltb (pyround adj 3) (-0.05) = false) as ->
        by (apply Qltb_ge; lra).
      now left.
Qed.

Lemma sentiment_classifies_unrounded_polarity_witness :
  exists base subj,
    constant_scorer 0.0504 0.0 hola = Some (base, subj) /\
    pyround 0.0504 3 =
      pyround (_adjust_polarity_with_keywords (latin1_lower hola) base) 3 /\
    "POSITIVO"%string =
      _classify_sentiment
        (_adjust_polarity_with_keywords (latin1_lower hola) base) /\
    (_classify_sentiment (pyround 0.0504 3) = "POSITIVO"%string \/
     ("POSITIVO"%string = "POSITIVO"%string /\ pyround 0.0504 3 == 0.05) \/
     ("POSITIVO"%string = "NEGATIVO"%string /\ pyround 0.0504 3 == -0.05)).
Proof.
  apply (sentiment_classifies_unrounded_polarity
           latin1_lower (constant_scorer 0.0504 0.0) hola 0
           (mkResult hola (pyround 0.0504 3) (pyround 0.0 3) "POSITIVO" 0 None)).
  vm_compute. reflexivity.
Defined.

(** ** Summaries *)

Lemma Q_of_nat_pos (n : nat) : (0 < n)%nat -> 0 < Q_of_nat n.
Proof.
  intro H. unfold Q_of_nat. change 0 with (inject_Z 0).
  rewrite <- Zlt_Qlt. lia.
Qed.

Lemma Q_of_nat_add (n m : nat) : Q_of_nat (n + m) == Q_of_nat n + Q_of_nat m.
Proof.
  unfold Q_of_nat. rewrite Nat2Z.inj_add, inject_Z_plus. reflexivity.
Qed.

Lemma pydiv_pos (a b : Q) : 0 < b -> pydiv a b = inr (a / b).
Proof.
  intro H. unfold pydiv.
  destruct (Qeq_bool b 0) eqn:E; [|reflexivity].
  apply Qeq_bool_iff in E. rewrite E in H. now apply Qlt_irrefl in H.
Qed.

Lemma get_analysis_summary_nonempty (results : list AnalysisResult) :
  results <> [] ->
  let total := List.length results in
  get_analysis_summary results =
    inr (Some (mkSummary total
                 (count_label "POSITIVO" results)
                 (count_label "NEGATIVO" results)
                 (count_label "NEUTRAL" results)
                 (pyround (Q_of_nat (count_label "POSITIVO" results)
                           / Q_of_nat total * 100) 1)
                 (pyround (Q_of_nat (count_label "NEGATIVO" results)
                           / Q_of_nat total * 100) 1)
                 (pyround (Q_of_nat (count_label "NEUTRAL" results)
                           / Q_of_nat total * 100) 1)
                 (pyround (Qsum (map polarity results) / Q_of_nat total) 3)
                 (pyround (Qsum (map subjectivity results) / Q_of_nat total)
                          3))).
Proof.
  intros Hne total.
  assert (0 < Q_of_nat total) as Hpos.
  { apply Q_of_nat_pos. subst total. destruct results; [congruence|simpl; lia]. }
  destruct results as [|r rest]; [congruence|].
  unfold get_analysis_summary. fold total.
  rewrite !(pydiv_pos _ _ Hpos). reflexivity.
Qed.

(** C8: for no results the summary is the empty one, returned without an
    exception; and no list of results makes [get_analysis_summary] raise,
    a division by zero included. *)
Theorem summary_of_no_results :
  get_analysis_summary [] = inr None /\
  forall results, exists s, get_analysis_summary results = inr s.
Proof.
  split; [reflexivity|].
  intros [|r rest].
  - exists None. reflexivity.
  - eexists. apply get_analysis_summary_nonempty. discriminate.
Qed.

Lemma count_label_cons (label : string) (r : AnalysisResult)
    (rest : list AnalysisResult) :
  count_label label (r :: rest) =
  ((if String.eqb (sentiment r) label then 1 else 0) + count_label label rest)%nat.
Proof.
  unfold count_label. simpl.
  destruct (String.eqb (sentiment r) label); reflexivity.
Qed.

Lemma count_labels_total (results : list AnalysisResult) :
  Forall (fun r => is_label (sentiment r)) results ->
  (count_label "POSITIVO" results + count_label "NEGATIVO" results
   + count_label "NEUTRAL" results = List.length results)%nat.
Proof.
  induction 1 as [|r rest Hr _ IH]; [reflexivity|].
  rewrite !count_label_cons. simpl List.length.
  destruct Hr as [-> | [-> | ->]]; simpl; lia.
Qed.

(** ** Batches *)

Lemma enumerate_cons {A : Type} (start : nat) (a : A) (l : list A) :
  enumerate start (a :: l) = (start, a) :: enumerate (S start) l.
Proof. reflexivity. Qed.

Lemma in_enumerate {A : Type} (l : list A) (start j : nat) (a : A) :
  In (j, a) (enumerate start l) <->
  exists k, j = (start + k)%nat /\ nth_error l k = Some a.
Proof.
  revert start. induction l as [|b l IH]; intro start.
  - simpl. split; [tauto|]. intros [[|k] [_ H]]; discriminate H.
  - rewrite enumerate_cons. simpl. rewrite IH. split.
    + intros [H | (k & -> & Hk)].
      * inversion H; subst. exists 0%nat. split; [lia | reflexivity].
      * exists (S k). split; [lia | exact Hk].
    + intros ([|k] & -> & Hk).
      * left. simpl in Hk. inversion Hk. f_equal. lia.
      * right. exists k. split; [lia | exact Hk].
Qed.

Lemma flat_map_head {A B : Type} (f : A -> list B) (a : A) (l : list A) :
  flat_map f (a :: l) = f a ++ flat_map f l.
Proof. reflexivity. Qed.

Section Batch.

Variable lower : pystr -> pystr.
Variable sentiment_of : pystr -> option (Q * Q).
Variable clock : nat -> Z.

(** The loop appends what each line yields, in the order of the lines. *)
Lemma fold_analyze_line (numbered : list (nat * pystr))
    (results : list AnalysisResult) (printed : list (nat * exn)) :
  fold_left (analyze_line lower sentiment_of clock) numbered (results, printed)
  = (results ++ flat_map (line_results lower sentiment_of clock) numbered,
     printed ++ flat_map (line_reports lower sentiment_of clock) numbered).
Proof.
  revert results printed.
  induction numbered as [|[line_num line] rest IH]; intros results printed.
  - simpl. now rewrite !app_nil_r.
  - change (fold_left (analyze_line lower sentiment_of clock)
                      ((line_num, line) :: rest) (results, printed))
      with (fold_left (analyze_line lower sentiment_of clock) rest
              (analyze_line lower sentiment_of clock (results, printed)
                 (line_num, line))).
    rewrite !flat_map_head.
    unfold analyze_line, line_results, line_reports.
    destruct (truthy (strip line)).
    + destruct (analyze_text lower sentiment_of (strip line) (clock line_num));
        rewrite IH; simpl; now rewrite <- ?app_assoc.
    + rewrite IH. reflexivity.
Qed.

Lemma analyze_file_lines (lines : list pystr) :
  analyze_file lower sentiment_of clock (Lines lines) =
  (inr (flat_map (line_results lower sentiment_of clock) (enumerate 1 lines)),
   flat_map (line_reports lower sentiment_of clock) (enumerate 1 lines)).
Proof.
  unfold analyze_file. rewrite fold_analyze_line. reflexivity.
Qed.

Lemma line_results_number (numbered_line : nat * pystr) (r : AnalysisResult) :
  In r (line_results lower sentiment_of clock numbered_line) ->
  line_number r = Some (fst numbered_line) /\
  analyze_text lower sentiment_of (strip (snd numbered_line))
               (clock (fst numbered_line)) <> inl ScorerError /\
  exists r0,
    analyze_text lower sentiment_of (strip (snd numbered_line))
                 (clock (fst numbered_line)) = inr r0.
Proof.
  destruct numbered_line as [line_num line]. unfold line_results. simpl.
  destruct (truthy (strip line)); [|intros []].
  destruct (analyze_text lower sentiment_of (strip line) (clock line_num))
    as [e|r0]; [intros []|].
  intros [<- | []]. split; [reflexivity|]. split; [discriminate|].
  now exists r0.
Qed.

Lemma results_when_scoring_succeeds (start : nat) (lines : list pystr) :
  (forall line, In line lines -> blank line = false ->
                sentiment_of (strip line) <> None) ->
  flat_map (line_reports lower sentiment_of clock) (enumerate start lines) = []
  /\
  map (fun r => (line_number r, text r))
      (flat_map (line_results lower sentiment_of clock) (enumerate start lines))
  = map (fun numbered_line =>
           (Some (fst numbered_line), strip (snd numbered_line)))
        (filter (fun numbered_line => negb (blank (snd numbered_line)))
                (enumerate start lines)).
Proof.
  revert start. induction lines as [|line rest IH]; intros start Hok.
  - split; reflexivity.
  - rewrite enumerate_cons.
    destruct (IH (S start)) as [IHp IHr].
    { intros l Hl. apply Hok. now right. }
    rewrite !flat_map_head, IHp. cbn [filter snd].
    unfold line_results at 1, line_reports at 1.
    rewrite truthy_strip_blank.
    destruct (blank line) eqn:Eb; simpl negb; cbv iota.
    + split; [reflexivity | exact IHr].
    + assert (blank (strip line) = false) as Hbs by now rewrite blank_strip.
      rewrite (analyze_text_nonblank _ _ _ _ Hbs).
      specialize (Hok line (or_introl eq_refl) Eb).
      destruct (sentiment_of (strip line)) as [[base subj]|]; [|congruence].
      split; [reflexivity|].
      cbn [app map line_number text set_line_number fst snd].
      rewrite strip_idem. now rewrite IHr.
Qed.

Lemma nonblank_count (start : nat) (lines : list pystr) :
  List.length
    (filter (fun numbered_line : nat * pystr =>
               negb (blank (snd numbered_line)))
            (enumerate start lines)) =
  (List.length lines - List.length (filter blank lines))%nat.
Proof.
  revert start. induction lines as [|line rest IH]; intro start;
    [reflexivity|].
  rewrite enumerate_cons. cbn [filter snd].
  pose proof (filter_length_le blank rest) as Hle.
  destruct (blank line); cbn [negb List.length]; rewrite IH; lia.
Qed.

End Batch.

(** C6: when scoring succeeds on every non-blank line, [analyze_file] on N
    lines of which K are blank returns N - K results and prints nothing; the
    results are those of the non-blank lines in input order, each with the
    stripped text of its line and, as line number, the position of that line
    in the input counted from 1, blank lines included. *)
Theorem analyze_file_skips_blank_lines (lower : pystr -> pystr)
    (sentiment_of : pystr -> option (Q * Q)) (clock : nat -> Z)
    (lines : list pystr) :
  (forall line, In line lines -> blank line = false ->
                sentiment_of (strip line) <> None) ->
  exists results,
    analyze_file lower sentiment_of clock (Lines lines) = (inr results, []) /\
    List.length results =
      (List.length lines - List.length (filter blank lines))%nat /\
    map (fun r => (line_number r, text r)) results =
      map (fun numbered_line =>
             (Some (fst numbered_line), strip (snd numbered_line)))
          (filter (fun numbered_line => negb (blank (snd numbered_line)))
                  (enumerate 1 lines)).
Proof.
  intro Hok.
  destruct (results_when_scoring_succeeds lower sentiment_of clock 1 lines Hok)
    as [Hp Hr].
  eexists. split; [|split].
  - rewrite analyze_file_lines, Hp. reflexivity.
  - rewrite <- (nonblank_count 1 lines).
    rewrite <- (length_map (fun r => (line_number r, text r))), Hr.
    now rewrite length_map.
  - exact Hr.
Qed.

Lemma analyze_file_skips_blank_lines_witness :
  exists results,
    analyze_file latin1_lower no_signal midnight (Lines four_lines)
      = (inr results, []) /\
    List.length results = 2%nat /\
    map (fun r => (line_number r, text r)) results =
      [(Some 1%nat, hola); (Some 4%nat, bueno_malo)].
Proof.
  apply (analyze_file_skips_blank_lines latin1_lower no_signal midnight
           four_lines).
  intros line _ _. discriminate.
Defined.

(** C7: a line whose scoring raises never aborts [analyze_file]: the call
    returns its results normally, they are what each line yields in input
    order, every line that scores is among them with its line number, and a
    line that raises is printed with its number and has no result. *)
Theorem analyze_file_isolates_failures (lower : pystr -> pystr)
    (sentiment_of : pystr -> option (Q * Q)) (clock : nat -> Z)
    (lines : list pystr) :
  exists results printed,
    analyze_file lower sentiment_of clock (Lines lines)
      = (inr results, printed) /\
    results =
      flat_map (line_results lower sentiment_of clock) (enumerate 1 lines) /\
    forall i line,
      nth_error lines i = Some line -> blank line = false ->
      match analyze_text lower sentiment_of (strip line) (clock (S i)) with
      | inr r => In (set_line_number r (S i)) results
      | inl e =>
          In (S i, e) printed /\
          forall r, In r results -> line_number r <> Some (S i)
      end.
Proof.
  eexists. eexists. split; [apply analyze_file_lines|].
  split; [reflexivity|].
  intros i line Hnth Hb.
  assert (In (S i, line) (enumerate 1 lines)) as Hin.
  { apply (proj2 (in_enumerate lines 1 (S i) line)).
    exists i. split; [reflexivity | exact Hnth]. }
  destruct (analyze_text lower sentiment_of (strip line) (clock (S i)))
    as [e|r] eqn:E.
  - split.
    + apply in_flat_map. exists (S i, line). split; [exact Hin|].
      unfold line_reports. rewrite truthy_strip_blank, Hb, E. now left.
    + intros r Hr Hnum.
      apply in_flat_map in Hr. destruct Hr as ([j l] & Hjl & Hr).
      apply line_results_number in Hr. simpl in Hr.
      destruct Hr as (Hj & _ & r0 & Hr0).
      rewrite Hj in Hnum. inversion Hnum; subst j.
      apply (proj1 (in_enumerate lines 1 (S i) l)) in Hjl.
      destruct Hjl as (k & Hk & Hl).
      assert (k = i) by lia. subst k.
      rewrite Hnth in Hl. inversion Hl; subst l.
      rewrite E in Hr0. discriminate Hr0.
  - apply in_flat_map. exists (S i, line). split; [exact Hin|].
    unfold line_results. rewrite truthy_strip_blank, Hb, E. now left.
Qed.

Lemma analyze_file_isolates_failures_witness :
  exists results printed,
    analyze_file latin1_lower (raises_on hola) midnight
                 (Lines lines_with_failure) = (inr results, printed) /\
    List.length results = 2%nat /\
    In (3%nat, ScorerError) printed.
Proof.
  destruct (analyze_file_isolates_failures latin1_lower (raises_on hola)
              midnight lines_with_failure)
    as (results & printed & Hrun & Hres & Hlines).
  exists results, printed.
  split; [exact Hrun|]. split.
  - rewrite Hres. vm_compute. reflexivity.
  - apply (Hlines 2%nat (file_line "hola")); vm_compute; reflexivity.
Defined.

(** * Further properties of the analyzer *)

(** ** Keyword matching *)

Lemma startswith_app (word s tail : pystr) :
  startswith s word = true -> startswith (s ++ tail) word = true.
Proof.
  revert s. induction word as [|w word IH]; intros s H.
  - destruct (s ++ tail); reflexivity.
  - destruct s as [|c s]; [discriminate H|].
    simpl in *. apply andb_true_iff in H. destruct H as [Hc Hs].
    rewrite Hc. simpl. apply IH, Hs.
Qed.

Lemma contains_app_r (word s tail : pystr) :
  contains word s = true -> contains word (s ++ tail) = true.
Proof.
  induction s as [|c s IH]; intro H.
  - simpl in H. rewrite orb_false_r in H.
    destruct word; [|discriminate H]. destruct tail; reflexivity.
  - cbn [contains] in H. apply orb_true_iff in H.
    change ((c :: s) ++ tail) with (c :: (s ++ tail)). cbn [contains].
    apply orb_true_iff. destruct H as [H|H].
    + left. apply (startswith_app word (c :: s) tail H).
    + right. apply IH, H.
Qed.

Lemma contains_app_l (word front s : pystr) :
  contains word s = true -> contains word (front ++ s) = true.
Proof.
  intro H. induction front as [|c front IH]; [exact H|].
  change ((c :: front) ++ s) with (c :: (front ++ s)). cbn [contains].
  rewrite IH. apply orb_true_r.
Qed.

Lemma startswith_prefix (word tail : pystr) :
  startswith (word ++ tail) word = true.
Proof.
  induction word as [|w word IH]; [destruct tail; reflexivity|].
  simpl. now rewrite N.eqb_refl.
Qed.

Lemma startswith_split (word s : pystr) :
  startswith s word = true -> exists tail, s = word ++ tail.
Proof.
  revert s. induction word as [|w word IH]; intros s H.
  - now exists s.
  - destruct s as [|c s]; [discriminate H|].
    simpl in H. apply andb_true_iff in H. destruct H as [Hc Hs].
    apply N.eqb_eq in Hc. subst c.
    destruct (IH s Hs) as [tail ->]. now exists tail.
Qed.

Lemma contains_iff (word s : pystr) :
  contains word s = true <-> exists front tail, s = front ++ word ++ tail.
Proof.
  split.
  - induction s as [|c s IH]; cbn [contains]; intro H.
    + rewrite orb_false_r in H. apply startswith_split in H.
      destruct H as [tail H]. now exists [], tail.
    + apply orb_true_iff in H. destruct H as [H|H].
      * apply startswith_split in H. destruct H as [tail H]. now exists [], tail.
      * destruct (IH H) as (front & tail & ->). now exists (c :: front), tail.
  - intros (front & tail & ->). apply contains_app_l.
    destruct (word ++ tail) as [|c rest] eqn:E; cbn [contains].
    + apply orb_true_iff. left. rewrite <- E. apply startswith_prefix.
    + apply orb_true_iff. left. rewrite <- E. apply startswith_prefix.
Qed.

Lemma list_sum_ones {A : Type} (l : list A) :
  list_sum (map (fun _ => 1%nat) l) = List.length l.
Proof. induction l as [|a l IH]; simpl; [reflexivity | now rewrite IH]. Qed.

Lemma filter_length_mono {A : Type} (f g : A -> bool) (l : list A) :
  (forall a, f a = true -> g a = true) ->
  (List.length (filter f l) <= List.length (filter g l))%nat.
Proof.
  intro Hfg. induction l as [|a l IH]; [reflexivity|].
  simpl. destruct (f a) eqn:Ef.
  - rewrite (Hfg a Ef). simpl. lia.
  - destruct (g a); simpl; lia.
Qed.

Lemma keyword_count_le_length (keywords : list pystr) (text_lower : pystr) :
  (keyword_count keywords text_lower <= List.length keywords)%nat.
Proof.
  unfold keyword_count. rewrite list_sum_ones. apply filter_length_le.
Qed.

(** X1: a keyword counts when it occurs anywhere in the text as a run of
    consecutive characters, and counts once however often it occurs; so the
    count never exceeds the size of the lexicon, 18 for either lexicon. *)
Theorem keyword_count_counts_substrings (keywords : list pystr)
    (text_lower : pystr) :
  keyword_count keywords text_lower =
    List.length
      (filter (fun word => contains word text_lower) keywords) /\
  (forall word,
     In word (filter (fun word => contains word text_lower) keywords) <->
     In word keywords /\
     exists front tail, text_lower = front ++ word ++ tail) /\
  (keyword_count keywords text_lower <= List.length keywords)%nat /\
  (keyword_count positive_keywords text_lower <= 18)%nat /\
  (keyword_count negative_keywords text_lower <= 18)%nat.
Proof.
  split; [unfold keyword_count; apply list_sum_ones|].
  split.
  { intro word. rewrite filter_In, contains_iff. reflexivity. }
  split; [apply keyword_count_le_length|].
  split.
  - exact (keyword_count_le_length positive_keywords text_lower).
  - exact (keyword_count_le_length negative_keywords text_lower).
Qed.

(** X2: text added before or after never removes a match: the count of a
    text embedded in a longer one is at most the count of the longer one. *)
Theorem keyword_count_monotone (keywords : list pystr)
    (front text_lower tail : pystr) :
  (keyword_count keywords text_lower <=
   keyword_count keywords (front ++ text_lower ++ tail))%nat.
Proof.
  unfold keyword_count. rewrite !list_sum_ones.
  apply filter_length_mono. intros word H.
  apply contains_app_l, contains_app_r, H.
Qed.

(** ** The branches of the keyword adjustment *)

Lemma Qabs_ge_cases (x y : Q) : y <= Qabs x -> x <= - y \/ y <= x.
Proof.
  apply Qabs_case; intros Hx H; [right | left]; lra.
Qed.

Lemma Qabs_lt_bounds (x y : Q) : Qabs x < y -> - y < x /\ x < y.
Proof.
  apply Qabs_case; intros Hx H; split; lra.
Qed.

Lemma Q_of_nat_nonneg (n : nat) : 0 <= Q_of_nat n.
Proof.
  unfold Q_of_nat. change 0 with (inject_Z 0). rewrite <- Zle_Qle. lia.
Qed.

Lemma Q_of_nat_le (n m : nat) : (n <= m)%nat -> Q_of_nat n <= Q_of_nat m.
Proof.
  intro H. unfold Q_of_nat. rewrite <- Zle_Qle. lia.
Qed.

(** The five ways out of [_adjust_polarity_with_keywords]. *)
Lemma adjust_polarity_cases (text_lower : pystr) (base : Q) :
  let pc := keyword_count positive_keywords text_lower in
  let nc := keyword_count negative_keywords text_lower in
  let adjusted := _adjust_polarity_with_keywords text_lower base in
  (Qabs base < 0.1 /\ (nc < pc)%nat /\
   adjusted = 0.3 + Q_of_nat pc * 0.1) \/
  (Qabs base < 0.1 /\ (pc < nc)%nat /\
   adjusted = -0.3 - Q_of_nat nc * 0.1) \/
  ((0.1 <= Qabs base \/ pc = nc) /\ (0 < pc)%nat /\ 0 < base /\
   adjusted = Qmin 1.0 (base + Q_of_nat pc * 0.2)) \/
  ((0.1 <= Qabs base \/ pc = nc) /\ (0 < nc)%nat /\ base < 0 /\
   adjusted = Qmax (-1.0) (base - Q_of_nat nc * 0.2)) \/
  ((0.1 <= Qabs base \/ pc = nc) /\
   (pc = 0%nat \/ base <= 0) /\ (nc = 0%nat \/ 0 <= base) /\
   adjusted = base).
Proof.
  intros pc nc adjusted. subst adjusted.
  unfold _adjust_polarity_with_keywords. fold pc nc.
  assert (forall gate : 0.1 <= Qabs base \/ pc = nc,
    ((0 < pc)%nat /\ 0 < base /\
     (if (0 <? pc)%nat && Qgtb base 0
      then Qmin 1.0 (base + Q_of_nat pc * 0.2)
      else if (0 <? nc)%nat && Qltb base 0
           then Qmax (-1.0) (base - Q_of_nat nc * 0.2) else base)
     = Qmin 1.0 (base + Q_of_nat pc * 0.2)) \/
    ((0 < nc)%nat /\ base < 0 /\
     (if (0 <? pc)%nat && Qgtb base 0
      then Qmin 1.0 (base + Q_of_nat pc * 0.2)
      else if (0 <? nc)%nat && Qltb base 0
           then Qmax (-1.0) (base - Q_of_nat nc * 0.2) else base)
     = Qmax (-1.0) (base - Q_of_nat nc * 0.2)) \/
    ((pc = 0%nat \/ base <= 0) /\ (nc = 0%nat \/ 0 <= base) /\
     (if (0 <? pc)%nat && Qgtb base 0
      then Qmin 1.0 (base + Q_of_nat pc * 0.2)
      else if (0 <? nc)%nat && Qltb base 0
           then Qmax (-1.0) (base - Q_of_nat nc * 0.2) else base)
     = base)) as Hamp.
  { intros _.
    destruct (0 <? pc)%nat eqn:P; destruct (Qgtb base 0) eqn:B;
    destruct (0 <? nc)%nat eqn:Nc; destruct (Qltb base 0) eqn:B';
    cbn [andb]; bool_cmp;
    first [apply Nat.ltb_lt in P | apply Nat.ltb_ge in P];
    first [apply Nat.ltb_lt in Nc | apply Nat.ltb_ge in Nc];
    try (left; split; [exact P|]; split; [exact B|]; reflexivity);
    try (right; left; split; [exact Nc|]; split; [exact B'|]; reflexivity);
    right; right;
    (split; [first [left; lia | right; lra]|]);
    (split; [first [left; lia | right; lra]|]); reflexivity. }
  destruct (Qltb (Qabs base) 0.1) eqn:A; bool_cmp.
  - destruct (nc <? pc)%nat eqn:E1.
    { apply Nat.ltb_lt in E1. left. now repeat split. }
    destruct (pc <? nc)%nat eqn:E2.
    { apply Nat.ltb_lt in E2. right; left. now repeat split. }
    apply Nat.ltb_ge in E1, E2.
    assert (pc = nc) as Heq by lia.
    destruct (Hamp (or_intror Heq)) as [H|[H|H]].
    + right; right; left. split; [now right | exact H].
    + right; right; right; left. split; [now right | exact H].
    + right; right; right; right. split; [now right | exact H].
  - destruct (Hamp (or_introl A)) as [H|[H|H]].
    + right; right; left. split; [now left | exact H].
    + right; right; right; left. split; [now left | exact H].
    + right; right; right; right. split; [now left | exact H].
Qed.

(** X3: when no keyword of either lexicon occurs in the text, the polarity
    of the base scorer is returned as it is, whatever its value. *)
Theorem no_keyword_no_adjustment (text_lower : pystr) (base : Q) :
  keyword_count positive_keywords text_lower = 0%nat ->
  keyword_count negative_keywords text_lower = 0%nat ->
  _adjust_polarity_with_keywords text_lower base = base.
Proof.
  intros Hp Hn.
  destruct (adjust_polarity_cases text_lower base)
    as [(_ & H & _)|[(_ & H & _)|[(_ & H & _)|[(_ & H & _)|(_ & _ & _ & H)]]]];
    try (rewrite ?Hp, ?Hn in H; lia).
  exact H.
Qed.

Lemma no_keyword_no_adjustment_witness :
  _adjust_polarity_with_keywords hola 0.07 = 0.07 /\
  _adjust_polarity_with_keywords hola (-0.8) = -0.8.
Proof.
  split; apply no_keyword_no_adjustment; vm_compute; reflexivity.
Defined.

Lemma adjust_in_range_with_signal (text_lower : pystr) (base : Q) :
  0.1 <= Qabs base -> -1 <= base <= 1 ->
  -1 <= _adjust_polarity_with_keywords text_lower base <= 1.
Proof.
  intros Habs Hb.
  pose proof (Q_of_nat_nonneg (keyword_count positive_keywords text_lower)).
  pose proof (Q_of_nat_nonneg (keyword_count negative_keywords text_lower)).
  destruct (adjust_polarity_cases text_lower base)
    as [(A & _)|[(A & _)|[(_ & _ & B & ->)|[(_ & _ & B & ->)|(_ & _ & _ & ->)]]]].
  - lra.
  - lra.
  - destruct (Q.min_spec 1.0
                (base + Q_of_nat (keyword_count positive_keywords text_lower)
                        * 0.2)) as [[? ->]|[? ->]]; lra.
  - destruct (Q.max_spec (-1.0)
                (base - Q_of_nat (keyword_count negative_keywords text_lower)
                        * 0.2)) as [[? ->]|[? ->]]; lra.
  - exact Hb.
Qed.

(** X4: outside the no-signal branch the clamps hold for any number of
    keywords: a base polarity in [-1, 1] of magnitude 0.1 or more is
    adjusted to a value in [-1, 1]. *)
Theorem signal_adjustment_in_range (text_lower : pystr) (base : Q) :
  0.1 <= Qabs base -> -1 <= base <= 1 ->
  -1 <= _adjust_polarity_with_keywords text_lower base <= 1.
Proof.
  intros Habs Hb. exact (adjust_in_range_with_signal text_lower base Habs Hb).
Qed.

Lemma signal_adjustment_in_range_witness :
  -1 <= _adjust_polarity_with_keywords eight_keywords 0.5 <= 1.
Proof.
  apply signal_adjustment_in_range.
  - vm_compute. intro H. discriminate H.
  - split; vm_compute; intro H; discriminate H.
Defined.

(** X5: keywords never weaken or reverse a signal the base scorer found: for
    a base polarity in [-1, 1] of magnitude 0.1 or more, a positive one is
    never lowered, a negative one never raised, and the adjusted polarity
    gets the same label as the base polarity. *)
Theorem signal_adjustment_keeps_direction (text_lower : pystr) (base : Q) :
  0.1 <= Qabs base -> -1 <= base <= 1 ->
  (0 < base -> base <= _adjust_polarity_with_keywords text_lower base) /\
  (base < 0 -> _adjust_polarity_with_keywords text_lower base <= base) /\
  _classify_sentiment (_adjust_polarity_with_keywords text_lower base) =
    _classify_sentiment base.
Proof.
  intros Habs Hb.
  pose proof (Q_of_nat_nonneg (keyword_count positive_keywords text_lower)).
  pose proof (Q_of_nat_nonneg (keyword_count negative_keywords text_lower)).
  assert ((0.1 <= base /\
           base <= _adjust_polarity_with_keywords text_lower base) \/
          (base <= -0.1 /\
           _adjust_polarity_with_keywords text_lower base <= base)) as Hdir.
  { destruct (Qabs_ge_cases _ _ Habs) as [Hneg|Hpos];
    destruct (adjust_polarity_cases text_lower base)
      as [(A & _)|[(A & _)|[(_ & _ & B & ->)|[(_ & _ & B & ->)
                                            |(_ & _ & _ & ->)]]]];
    try (apply Qabs_lt_bounds in A); try lra.
    - destruct (Q.max_spec (-1.0)
                  (base - Q_of_nat (keyword_count negative_keywords text_lower)
                          * 0.2)) as [[? ->]|[? ->]]; right; split; lra.
    - destruct (Q.min_spec 1.0
                  (base + Q_of_nat (keyword_count positive_keywords text_lower)
                          * 0.2)) as [[? ->]|[? ->]]; left; split; lra. }
  split; [|split].
  - intro Hp. destruct Hdir as [[_ H1]|[H1 _]]; lra.
  - intro Hn. destruct Hdir as [[H1 _]|[_ H1]]; lra.
  - unfold _classify_sentiment. destruct Hdir as [[H1 H2]|[H1 H2]].
    + assert (Qgtb base 0.05 = true) as -> by (apply Qgtb_gt; lra).
      assert (Qgtb (_adjust_polarity_with_keywords text_lower base) 0.05
              = true) as -> by (apply Qgtb_gt; lra).
      reflexivity.
    + assert (Qgtb base 0.05 = false) as -> by (apply Qgtb_le; lra).
      assert (Qgtb (_adjust_polarity_with_keywords text_lower base) 0.05
              = false) as -> by (apply Qgtb_le; lra).
      assert (Qltb base (-0.05) = true) as -> by (apply Qltb_lt; lra).
      assert (Qltb (_adjust_polarity_with_keywords text_lower base) (-0.05)
              = true) as -> by (apply Qltb_lt; lra).
      reflexivity.
Qed.

Lemma signal_adjustment_keeps_direction_witness :
  0.5 <= _adjust_polarity_with_keywords bueno_malo 0.5 /\
  _classify_sentiment (_adjust_polarity_with_keywords bueno_malo (-0.5)) =
    _classify_sentiment (-0.5).
Proof.
  split.
  - apply (signal_adjustment_keeps_direction bueno_malo 0.5).
    + vm_compute. intro H. discriminate H.
    + split; vm_compute; intro H; discriminate H.
    + vm_compute. reflexivity.
  - apply (signal_adjustment_keeps_direction bueno_malo (-0.5)).
    + vm_compute. intro H. discriminate H.
    + split; vm_compute; intro H; discriminate H.
Defined.

(** X6: when the base polarity has magnitude below 0.1 the lexicon with more
    matches decides the label, whatever the sign of the base polarity: more
    positive matches give 0.4 or more and POSITIVO, more negative ones give
    -0.4 or less and NEGATIVO. *)
Theorem no_signal_majority_decides (text_lower : pystr) (base : Q) :
  Qabs base < 0.1 ->
  let pc := keyword_count positive_keywords text_lower in
  let nc := keyword_count negative_keywords text_lower in
  ((nc < pc)%nat ->
   0.4 <= _adjust_polarity_with_keywords text_lower base /\
   _classify_sentiment (_adjust_polarity_with_keywords text_lower base)
     = "POSITIVO"%string) /\
  ((pc < nc)%nat ->
   _adjust_polarity_with_keywords text_lower base <= -0.4 /\
   _classify_sentiment (_adjust_polarity_with_keywords text_lower base)
     = "NEGATIVO"%string).
Proof.
  intros Habs pc nc. subst pc nc.
  split; intro Hmaj.
  - assert (0.4 <= _adjust_polarity_with_keywords text_lower base) as Hge.
    { pose proof (Q_of_nat_le 1
                    (keyword_count positive_keywords text_lower)
                    ltac:(lia)) as H1.
      change (Q_of_nat 1) with 1 in H1.
      destruct (adjust_polarity_cases text_lower base)
        as [(_ & _ & ->)|[(_ & C & _)|[([A|A] & _)|[([A|A] & _)
                                                    |([A|A] & _)]]]];
        try lia; lra. }
    split; [exact Hge|]. unfold _classify_sentiment.
    assert (Qgtb (_adjust_polarity_with_keywords text_lower base) 0.05 = true)
      as -> by (apply Qgtb_gt; lra).
    reflexivity.
  - assert (_adjust_polarity_with_keywords text_lower base <= -0.4) as Hle.
    { pose proof (Q_of_nat_le 1
                    (keyword_count negative_keywords text_lower)
                    ltac:(lia)) as H1.
      change (Q_of_nat 1) with 1 in H1.
      destruct (adjust_polarity_cases text_lower base)
        as [(_ & C & _)|[(_ & _ & ->)|[([A|A] & _)|[([A|A] & _)
                                                    |([A|A] & _)]]]];
        try lia; lra. }
    split; [exact Hle|]. unfold _classify_sentiment.
    assert (Qgtb (_adjust_polarity_with_keywords text_lower base) 0.05 = false)
      as -> by (apply Qgtb_le; lra).
    assert (Qltb (_adjust_polarity_with_keywords text_lower base) (-0.05)
            = true) as -> by (apply Qltb_lt; lra).
    reflexivity.
Qed.

Lemma no_signal_majority_decides_witness :
  _classify_sentiment (_adjust_polarity_with_keywords (py "bueno") (-0.09))
    = "POSITIVO"%string /\
  _classify_sentiment (_adjust_polarity_with_keywords (py "malo") 0.09)
    = "NEGATIVO"%string.
Proof.
  split.
  - apply (no_signal_majority_decides (py "bueno") (-0.09)).
    + vm_compute. reflexivity.
    + vm_compute. lia.
  - apply (no_signal_majority_decides (py "malo") 0.09).
    + vm_compute. reflexivity.
    + vm_compute. lia.
Defined.

(** X7: for a base polarity in [-1, 1] the adjusted polarity is never
    outside [-2.1, 2.1], and the no-signal branch reaches both ends: 2.1 on
    a text with the 18 positive keywords, -2.1 on one with the 18 negative
    keywords. *)
Theorem adjusted_polarity_bound (text_lower : pystr) (base : Q) :
  -1 <= base <= 1 ->
  -2.1 <= _adjust_polarity_with_keywords text_lower base <= 2.1 /\
  _adjust_polarity_with_keywords (all_keywords positive_keywords) 0.0 == 2.1 /\
  _adjust_polarity_with_keywords (all_keywords negative_keywords) 0.0
    == -2.1.
Proof.
  intro Hb.
  split; [|split; vm_compute; reflexivity].
  pose proof (Q_of_nat_nonneg (keyword_count positive_keywords text_lower)).
  pose proof (Q_of_nat_nonneg (keyword_count negative_keywords text_lower)).
  pose proof (Q_of_nat_le _ 18
                (keyword_count_le_length positive_keywords text_lower)) as HP.
  pose proof (Q_of_nat_le _ 18
                (keyword_count_le_length negative_keywords text_lower)) as HN.
  change (Q_of_nat 18) with 18 in HP, HN.
  destruct (adjust_polarity_cases text_lower base)
    as [(_ & _ & ->)|[(_ & _ & ->)|[(_ & _ & B & ->)|[(_ & _ & B & ->)
                                                     |(_ & _ & _ & ->)]]]].
  - lra.
  - lra.
  - destruct (Q.min_spec 1.0
                (base + Q_of_nat (keyword_count positive_keywords text_lower)
                        * 0.2)) as [[? ->]|[? ->]]; lra.
  - destruct (Q.max_spec (-1.0)
                (base - Q_of_nat (keyword_count negative_keywords text_lower)
                        * 0.2)) as [[? ->]|[? ->]]; lra.
  - lra.
Qed.

Lemma adjusted_polarity_bound_witness :
  -2.1 <= _adjust_polarity_with_keywords eight_keywords 0.0 <= 2.1.
Proof.
  apply (adjusted_polarity_bound eight_keywords 0.0).
  split; vm_compute; intro H; discriminate H.
Defined.

(** ** Descriptions *)

Lemma Qgeb_lt (x y : Q) : Qgeb x y = false <-> x < y.
Proof.
  unfold Qgeb. split; intro H.
  - apply Qnot_le_lt. intro Hle. apply Qle_bool_iff in Hle. congruence.
  - destruct (Qle_bool y x) eqn:E; [|reflexivity].
    apply Qle_bool_iff in E. exfalso. apply (Qlt_not_le _ _ H E).
Qed.

Ltac bool_cmp_all :=
  repeat match goal with
  | H : Qgeb _ _ = false |- _ => apply Qgeb_lt in H
  | H : _ /\ _ |- _ => destruct H
  end;
  bool_cmp.

(** The value of [get_polarity_description] in each band, with the sign of
    the polarity settled. *)
Ltac description_bands p :=
  let Hs := fresh "Hs" in
  let Ha := fresh "Ha" in
  destruct (Qlt_le_dec p 0) as [Hs|Hs];
  [ pose proof (Qabs_neg p (Qlt_le_weak _ _ Hs)) as Ha
  | pose proof (Qabs_pos p Hs) as Ha ];
  unfold get_polarity_description;
  destruct (Qgeb (Qabs p) 0.7) eqn:?;
  destruct (Qgeb (Qabs p) 0.3) eqn:?;
  destruct (Qgeb (Qabs p) 0.05) eqn:?;
  destruct (Qgtb p 0) eqn:?;
  bool_cmp_all; try lra.

Lemma description_of_positive (p : Q) :
  0.05 <= p -> In (get_polarity_description p) positive_descriptions.
Proof.
  intro H. unfold positive_descriptions.
  description_bands p; simpl; tauto.
Qed.

Lemma description_of_negative (p : Q) :
  p <= -0.05 -> In (get_polarity_description p) negative_descriptions.
Proof.
  intro H. unfold negative_descriptions.
  description_bands p; simpl; tauto.
Qed.

Lemma description_of_small (p : Q) :
  -0.05 <= p <= 0.05 ->
  In (get_polarity_description p)
     ["Neutral"; "Ligeramente positivo"; "Ligeramente negativo"]%string.
Proof.
  intros [H1 H2].
  description_bands p; simpl; tauto.
Qed.

(** X8: the description of a polarity by bands: "Muy" from 0.7, then
    "Moderadamente" from 0.3, "Ligeramente" from 0.05, each with "positivo"
    above zero and "negativo" below, and "Neutral" strictly between -0.05
    and 0.05. *)
Theorem polarity_description_bands (p : Q) :
  (0.7 <= p -> get_polarity_description p = "Muy positivo"%string) /\
  (0.3 <= p < 0.7 ->
   get_polarity_description p = "Moderadamente positivo"%string) /\
  (0.05 <= p < 0.3 ->
   get_polarity_description p = "Ligeramente positivo"%string) /\
  (-0.05 < p < 0.05 -> get_polarity_description p = "Neutral"%string) /\
  (-0.3 < p <= -0.05 ->
   get_polarity_description p = "Ligeramente negativo"%string) /\
  (-0.7 < p <= -0.3 ->
   get_polarity_description p = "Moderadamente negativo"%string) /\
  (p <= -0.7 -> get_polarity_description p = "Muy negativo"%string).
Proof.
  repeat split; intro H; description_bands p; reflexivity.
Qed.

Lemma polarity_description_bands_witness :
  get_polarity_description 0.9 = "Muy positivo"%string /\
  get_polarity_description 0.0 = "Neutral"%string /\
  get_polarity_description (-0.3) = "Moderadamente negativo"%string.
Proof.
  split; [|split].
  - apply (polarity_description_bands 0.9). vm_compute. intro H. discriminate H.
  - apply (polarity_description_bands 0.0). split; vm_compute; reflexivity.
  - apply (polarity_description_bands (-0.3)).
    split; [vm_compute; reflexivity | vm_compute; intro H; discriminate H].
Defined.

(** X9: label and description of one polarity agree in sign: POSITIVO goes
    with a "positivo" description and NEGATIVO with a "negativo" one; the
    description is "Neutral" exactly when the magnitude is below 0.05, and
    then the label is NEUTRAL. *)
Theorem label_and_description_agree (p : Q) :
  (get_polarity_description p = "Neutral"%string <-> Qabs p < 0.05) /\
  (_classify_sentiment p = "POSITIVO"%string ->
   In (get_polarity_description p) positive_descriptions) /\
  (_classify_sentiment p = "NEGATIVO"%string ->
   In (get_polarity_description p) negative_descriptions) /\
  (get_polarity_description p = "Neutral"%string ->
   _classify_sentiment p = "NEUTRAL"%string).
Proof.
  assert (get_polarity_description p = "Neutral"%string <-> Qabs p < 0.05)
    as Hneutral.
  { split; intro H.
    - destruct (Qlt_le_dec (Qabs p) 0.05) as [Hlt|Hge]; [exact Hlt|].
      exfalso. revert H.
      description_bands p; simpl; discriminate.
    - description_bands p; reflexivity. }
  split; [exact Hneutral|].
  split; [|split].
  - intro H. apply description_of_positive.
    unfold _classify_sentiment in H.
    destruct (Qgtb p 0.05) eqn:E; [bool_cmp; lra|].
    destruct (Qltb p (-0.05)); discriminate H.
  - intro H. apply description_of_negative.
    unfold _classify_sentiment in H.
    destruct (Qgtb p 0.05) eqn:E; [discriminate H|].
    destruct (Qltb p (-0.05)) eqn:E2; [bool_cmp; lra | discriminate H].
  - intro H. apply Hneutral in H. apply Qabs_lt_bounds in H.
    unfold _classify_sentiment.
    assert (Qgtb p 0.05 = false) as -> by (apply Qgtb_le; lra).
    assert (Qltb p (-0.05) = false) as -> by (apply Qltb_ge; lra).
    reflexivity.
Qed.

Lemma label_and_description_agree_witness :
  In (get_polarity_description 0.06) positive_descriptions /\
  In (get_polarity_description (-0.4)) negative_descriptions /\
  get_polarity_description 0.04 = "Neutral"%string.
Proof.
  split; [|split].
  - apply (label_and_description_agree 0.06). vm_compute. reflexivity.
  - apply (label_and_description_agree (-0.4)). vm_compute. reflexivity.
  - apply (label_and_description_agree 0.04). vm_compute. reflexivity.
Defined.

(** X10: the description of a subjectivity by bands, values outside [0, 1]
    included: "Objetivo" below 0.1, "Ligeramente subjetivo" from 0.1,
    "Moderadamente subjetivo" from 0.4 and "Muy subjetivo" from 0.7. *)
Theorem subjectivity_description_bands (s : Q) :
  (get_subjectivity_description s = "Objetivo"%string <-> s < 0.1) /\
  (get_subjectivity_description s = "Ligeramente subjetivo"%string <->
   0.1 <= s < 0.4) /\
  (get_subjectivity_description s = "Moderadamente subjetivo"%string <->
   0.4 <= s < 0.7) /\
  (get_subjectivity_description s = "Muy subjetivo"%string <-> 0.7 <= s).
Proof.
  unfold get_subjectivity_description.
  destruct (Qgeb s 0.7) eqn:E1; destruct (Qgeb s 0.4) eqn:E2;
    destruct (Qgeb s 0.1) eqn:E3; bool_cmp_all;
    repeat split; intros; bool_cmp_all;
    try reflexivity; try discriminate; lra.
Qed.

Lemma subjectivity_description_bands_witness :
  get_subjectivity_description 0.5 = "Moderadamente subjetivo"%string /\
  get_subjectivity_description (-0.2) = "Objetivo"%string /\
  get_subjectivity_description 1.5 = "Muy subjetivo"%string.
Proof.
  split; [|split].
  - apply (subjectivity_description_bands 0.5).
    split; [vm_compute; intro H; discriminate H | vm_compute; reflexivity].
  - apply (subjectivity_description_bands (-0.2)). vm_compute. reflexivity.
  - apply (subjectivity_description_bands 1.5).
    vm_compute. intro H. discriminate H.
Defined.

(** ** The result of one text *)

Lemma strip_first (s : pystr) (c : N) (rest : pystr) :
  strip s = c :: rest -> isspace c = false.
Proof.
  unfold strip.
  destruct (lstrip_head s) as [-> | (c0 & r0 & -> & Hc)]; [discriminate|].
  rewrite (rstrip_cons _ _ Hc). intro H. inversion H. now subst.
Qed.

Lemma strip_last (s front : pystr) (c : N) :
  strip s = front ++ [c] -> isspace c = false.
Proof.
  unfold strip, rstrip.
  destruct (lstrip_head (rev (lstrip s))) as [-> | (c0 & r0 & -> & Hc)].
  - destruct front; discriminate.
  - simpl. intro H. apply app_inj_tail in H. destruct H as [_ <-]. exact Hc.
Qed.

Lemma pyround_unit_interval (x : Q) :
  0 <= x <= 1 -> 0 <= pyround x 3 <= 1.
Proof.
  intros [H0 H1].
  assert (pyround 0 3 == 0) as E0 by (vm_compute; reflexivity).
  assert (pyround 1 3 == 1) as E1 by (vm_compute; reflexivity).
  pose proof (pyround_mono _ _ 3 H0). pose proof (pyround_mono _ _ 3 H1).
  split; lra.
Qed.

Lemma pyround_signed_unit_interval (x : Q) :
  -1 <= x <= 1 -> -1 <= pyround x 3 <= 1.
Proof.
  intros [H0 H1].
  assert (pyround (-1) 3 == -1) as E0 by (vm_compute; reflexivity).
  assert (pyround 1 3 == 1) as E1 by (vm_compute; reflexivity).
  pose proof (pyround_mono _ _ 3 H0). pose proof (pyround_mono _ _ 3 H1).
  split; lra.
Qed.

(** X11: a result of [analyze_text] holds the stripped text, which is not
    empty and neither starts nor ends with white space; it has one of the
    three labels, the time it was given, and no line number. *)
Theorem analyze_text_result_shape (lower : pystr -> pystr)
    (sentiment_of : pystr -> option (Q * Q)) (txt : pystr) (now : Z)
    (r : AnalysisResult) :
  analyze_text lower sentiment_of txt now = inr r ->
  text r = strip txt /\
  text r <> [] /\
  (forall c rest, text r = c :: rest -> isspace c = false) /\
  (forall front c, text r = front ++ [c] -> isspace c = false) /\
  is_label (sentiment r) /\
  timestamp r = now /\
  line_number r = None.
Proof.
  intro H. apply analyze_text_inr in H.
  destruct H as [Hb (base & subj & _ & ->)]. simpl.
  split; [reflexivity|].
  split; [intro E; apply strip_nil_iff in E; congruence|].
  split; [intros c rest; apply strip_first|].
  split; [intros front c; apply strip_last|].
  split; [apply classify_sentiment_label|].
  split; reflexivity.
Qed.

Lemma analyze_text_result_shape_witness :
  text (mkResult hola (pyround 0.0 3) (pyround 0.0 3) "NEUTRAL" 7 None)
    = strip (py "  hola ") /\
  is_label "NEUTRAL".
Proof.
  destruct (analyze_text_result_shape latin1_lower no_signal (py "  hola ") 7
              (mkResult hola (pyround 0.0 3) (pyround 0.0 3) "NEUTRAL" 7 None))
    as (H1 & _ & _ & _ & H2 & _).
  - vm_compute. reflexivity.
  - split; [exact H1 | exact H2].
Defined.

(** X13: a subjectivity in [0, 1] is stored in [0, 1]; a base polarity in
    [-1, 1] is stored in [-1, 1] when its magnitude is 0.1 or more, or when
    at most seven keywords of each lexicon match. *)
Theorem analyze_text_scores_in_range (lower : pystr -> pystr)
    (sentiment_of : pystr -> option (Q * Q)) (txt : pystr) (now : Z)
    (r : AnalysisResult) (base subj : Q) :
  analyze_text lower sentiment_of txt now = inr r ->
  sentiment_of txt = Some (base, subj) ->
  (0 <= subj <= 1 -> 0 <= subjectivity r <= 1) /\
  (-1 <= base <= 1 ->
   0.1 <= Qabs base \/
   (keyword_count positive_keywords (lower txt) <= 7 /\
    keyword_count negative_keywords (lower txt) <= 7)%nat ->
   -1 <= polarity r <= 1).
Proof.
  intros H Hs. apply analyze_text_inr in H.
  destruct H as [_ (base' & subj' & Hs' & ->)].
  rewrite Hs in Hs'. inversion Hs'; subst base' subj'. simpl.
  split.
  - apply pyround_unit_interval.
  - intros Hb Hcase. apply pyround_signed_unit_interval.
    destruct Hcase as [Habs | [Hp Hn]].
    + apply adjust_in_range_with_signal; assumption.
    + apply adjusted_polarity_in_range_up_to_seven; assumption.
Qed.

Lemma analyze_text_scores_in_range_witness :
  0 <= pyround 0.25 3 <= 1 /\ -1 <= pyround 1.0 3 <= 1.
Proof.
  assert (analyze_text latin1_lower (constant_scorer 0.5 0.25)
            eight_keywords 0
          = inr (mkResult eight_keywords (pyround 1.0 3) (pyround 0.25 3)
                          "POSITIVO" 0 None)) as Hrun
    by (vm_compute; reflexivity).
  destruct (analyze_text_scores_in_range latin1_lower
              (constant_scorer 0.5 0.25) eight_keywords 0 _ 0.5 0.25
              Hrun eq_refl) as [Hsub Hpol].
  split.
  - apply Hsub. split; vm_compute; intro H; discriminate H.
  - apply Hpol.
    + split; vm_compute; intro H; discriminate H.
    + left. vm_compute. intro H. discriminate H.
Defined.

(** X14: the label of a result and the description of its stored polarity
    never disagree in sign: POSITIVO is shown with a "positivo" description,
    NEGATIVO with a "negativo" one, and NEUTRAL with "Neutral" or a
    "Ligeramente" description. *)
Theorem result_label_matches_description (lower : pystr -> pystr)
    (sentiment_of : pystr -> option (Q * Q)) (txt : pystr) (now : Z)
    (r : AnalysisResult) :
  analyze_text lower sentiment_of txt now = inr r ->
  (sentiment r = "POSITIVO"%string ->
   In (get_polarity_description (polarity r)) positive_descriptions) /\
  (sentiment r = "NEGATIVO"%string ->
   In (get_polarity_description (polarity r)) negative_descriptions) /\
  (sentiment r = "NEUTRAL"%string ->
   In (get_polarity_description (polarity r))
      ["Neutral"; "Ligeramente positivo"; "Ligeramente negativo"]%string).
Proof.
  intro H. apply analyze_text_inr in H.
  destruct H as [_ (base & subj & _ & ->)]. simpl.
  set (adj := _adjust_polarity_with_keywords (lower txt) base).
  assert (pyround 0.05 3 == 0.05) as Hp by (vm_compute; reflexivity).
  assert (pyround (-0.05) 3 == -0.05) as Hn by (vm_compute; reflexivity).
  unfold _classify_sentiment.
  destruct (Qgtb adj 0.05) eqn:A1.
  - bool_cmp.
    pose proof (pyround_mono 0.05 adj 3 (Qlt_le_weak _ _ A1)) as Hm.
    split; [|split]; intro E; try discriminate E.
    apply description_of_positive. lra.
  - destruct (Qltb adj (-0.05)) eqn:A2; bool_cmp.
    + pose proof (pyround_mono adj (-0.05) 3 (Qlt_le_weak _ _ A2)) as Hm.
      split; [|split]; intro E; try discriminate E.
      apply description_of_negative. lra.
    + pose proof (pyround_mono adj 0.05 3 A1) as Hm1.
      pose proof (pyround_mono (-0.05) adj 3 A2) as Hm2.
      split; [|split]; intro E; try discriminate E.
      apply description_of_small. split; lra.
Qed.

Lemma result_label_matches_description_witness :
  In (get_polarity_description (pyround 0.0504 3)) positive_descriptions.
Proof.
  apply (result_label_matches_description latin1_lower
           (constant_scorer 0.0504 0.0) hola 0
           (mkResult hola (pyround 0.0504 3) (pyround 0.0 3)
                     "POSITIVO" 0 None)).
  - vm_compute. reflexivity.
  - reflexivity.
Defined.

(** ** More on batches *)

Lemma enumerate_app {A : Type} (start : nat) (l1 l2 : list A) :
  enumerate start (l1 ++ l2) =
  enumerate start l1 ++ enumerate (start + List.length l1) l2.
Proof.
  revert start. induction l1 as [|a l1 IH]; intro start.
  - simpl. now rewrite Nat.add_0_r.
  - change ((a :: l1) ++ l2) with (a :: (l1 ++ l2)).
    rewrite !enumerate_cons, IH. simpl List.length.
    now rewrite <- Nat.add_succ_comm.
Qed.

Lemma flat_map_nil_iff {A B : Type} (f : A -> list B) (l : list A) :
  flat_map f l = [] <-> forall a, In a l -> f a = [].
Proof.
  induction l as [|x l IH]; simpl.
  - split; [intros _ a [] | reflexivity].
  - split.
    + intros H a [<- | Ha].
      * now apply app_eq_nil in H.
      * apply app_eq_nil in H. apply IH; tauto.
    + intro H. rewrite (H x (or_introl eq_refl)). simpl.
      apply IH. intros a Ha. apply H. now right.
Qed.

Section MoreBatch.

Variable lower : pystr -> pystr.
Variable sentiment_of : pystr -> option (Q * Q).

Lemma line_outcome (clock : nat -> Z) (line_num : nat) (line : pystr) :
  (blank line = true /\
   line_results lower sentiment_of clock (line_num, line) = [] /\
   line_reports lower sentiment_of clock (line_num, line) = []) \/
  (blank line = false /\ sentiment_of (strip line) = None /\
   line_results lower sentiment_of clock (line_num, line) = [] /\
   line_reports lower sentiment_of clock (line_num, line)
     = [(line_num, ScorerError)]) \/
  (blank line = false /\
   exists base subj,
     sentiment_of (strip line) = Some (base, subj) /\
     line_reports lower sentiment_of clock (line_num, line) = [] /\
     line_results lower sentiment_of clock (line_num, line) =
       [mkResult (strip line)
          (pyround (_adjust_polarity_with_keywords (lower (strip line)) base) 3)
          (pyround subj 3)
          (_classify_sentiment
             (_adjust_polarity_with_keywords (lower (strip line)) base))
          (clock line_num) (Some line_num)]).
Proof.
  unfold line_results, line_reports. rewrite truthy_strip_blank.
  destruct (blank line) eqn:Eb; simpl negb; cbv iota.
  - left. now repeat split.
  - right.
    assert (blank (strip line) = false) as Hbs by now rewrite blank_strip.
    rewrite (analyze_text_nonblank _ _ _ _ Hbs).
    destruct (sentiment_of (strip line)) as [[base subj]|].
    + right. split; [reflexivity|]. exists base, subj.
      split; [reflexivity|]. split; [reflexivity|].
      unfold set_line_number. simpl. now rewrite strip_idem.
    + left. now repeat split.
Qed.

Lemma outcome_count (clock : nat -> Z) (start : nat) (lines : list pystr) :
  (List.length
     (flat_map (line_results lower sentiment_of clock) (enumerate start lines))
   + List.length
       (flat_map (line_reports lower sentiment_of clock)
                 (enumerate start lines))
   = List.length lines - List.length (filter blank lines))%nat.
Proof.
  revert start. induction lines as [|line rest IH]; intro start;
    [reflexivity|].
  rewrite enumerate_cons, !flat_map_head, !length_app.
  specialize (IH (S start)).
  pose proof (filter_length_le blank rest) as Hle.
  cbn [filter List.length].
  destruct (line_outcome clock start line)
    as [(Hb & -> & ->)|[(Hb & _ & -> & ->)|(Hb & b & s & _ & -> & ->)]];
    rewrite Hb; cbn [List.length]; lia.
Qed.

Lemma line_numbers_sorted (clock : nat -> Z) (start : nat)
    (lines : list pystr) :
  exists nums,
    map line_number
        (flat_map (line_results lower sentiment_of clock)
                  (enumerate start lines)) = map Some nums /\
    StronglySorted lt nums /\
    Forall (fun n => start <= n < start + List.length lines)%nat nums.
Proof.
  revert start. induction lines as [|line rest IH]; intro start.
  - exists []. repeat split; constructor.
  - destruct (IH (S start)) as (nums & Hmap & Hsorted & Hrange).
    rewrite enumerate_cons, flat_map_head, map_app, Hmap.
    assert (Forall (fun n => start <= n < start + List.length (line :: rest))%nat
                   nums) as Hrange'.
    { eapply Forall_impl; [|exact Hrange]. simpl. intros n Hn. lia. }
    destruct (line_outcome clock start line)
      as [(_ & -> & _)|[(_ & _ & -> & _)|(_ & b & s & _ & _ & ->)]].
    + exists nums. now repeat split.
    + exists nums. now repeat split.
    + exists (start :: nums). split; [reflexivity|]. split.
      * constructor; [exact Hsorted|].
        eapply Forall_impl; [|exact Hrange]. simpl. intros n Hn. lia.
      * constructor; [simpl; lia | exact Hrange'].
Qed.

Lemma reported_numbers_sorted (clock : nat -> Z) (start : nat)
    (lines : list pystr) :
  StronglySorted lt
    (map fst (flat_map (line_reports lower sentiment_of clock)
                       (enumerate start lines))) /\
  Forall (fun n => start <= n < start + List.length lines)%nat
    (map fst (flat_map (line_reports lower sentiment_of clock)
                       (enumerate start lines))).
Proof.
  revert start. induction lines as [|line rest IH]; intro start.
  - split; constructor.
  - destruct (IH (S start)) as (Hsorted & Hrange).
    rewrite enumerate_cons, flat_map_head, map_app.
    assert (Forall (fun n => start <= n < start + List.length (line :: rest))%nat
              (map fst (flat_map (line_reports lower sentiment_of clock)
                                 (enumerate (S start) rest)))) as Hrange'.
    { eapply Forall_impl; [|exact Hrange]. simpl. intros n Hn. lia. }
    destruct (line_outcome clock start line)
      as [(_ & _ & ->)|[(_ & _ & _ & ->)|(_ & b & s & _ & -> & _)]].
    + now split.
    + split.
      * constructor; [exact Hsorted|].
        eapply Forall_impl; [|exact Hrange]. simpl. intros n Hn. lia.
      * constructor; [simpl; lia | exact Hrange'].
    + now split.
Qed.

Lemma line_results_shift (clock : nat -> Z) (offset start : nat)
    (lines : list pystr) :
  flat_map (line_results lower sentiment_of clock)
           (enumerate (offset + start) lines) =
  map (shift_result offset)
      (flat_map (line_results lower sentiment_of
                   (fun n => clock (offset + n)%nat))
                (enumerate start lines)).
Proof.
  revert start. induction lines as [|line rest IH]; intro start;
    [reflexivity|].
  rewrite !enumerate_cons, !flat_map_head, map_app.
  rewrite <- (Nat.add_succ_r offset start), (IH (S start)). f_equal.
  unfold line_results.
  destruct (truthy (strip line)); [|reflexivity].
  destruct (analyze_text lower sentiment_of (strip line) (clock (offset + start)%nat));
    reflexivity.
Qed.

Lemma line_reports_shift (clock : nat -> Z) (offset start : nat)
    (lines : list pystr) :
  flat_map (line_reports lower sentiment_of clock)
           (enumerate (offset + start) lines) =
  map (shift_report offset)
      (flat_map (line_reports lower sentiment_of
                   (fun n => clock (offset + n)%nat))
                (enumerate start lines)).
Proof.
  revert start. induction lines as [|line rest IH]; intro start;
    [reflexivity|].
  rewrite !enumerate_cons, !flat_map_head, map_app.
  rewrite <- (Nat.add_succ_r offset start), (IH (S start)). f_equal.
  unfold line_reports.
  destruct (truthy (strip line)); [|reflexivity].
  destruct (analyze_text lower sentiment_of (strip line) (clock (offset + start)%nat));
    reflexivity.
Qed.

Lemma line_results_labelled (clock : nat -> Z) (start : nat)
    (lines : list pystr) :
  Forall (fun r => is_label (sentiment r))
    (flat_map (line_results lower sentiment_of clock) (enumerate start lines)).
Proof.
  revert start. induction lines as [|line rest IH]; intro start;
    [constructor|].
  rewrite enumerate_cons, flat_map_head. apply Forall_app. split; [|apply IH].
  destruct (line_outcome clock start line)
    as [(_ & -> & _)|[(_ & _ & -> & _)|(_ & b & s & _ & _ & ->)]];
    try constructor; [|constructor].
  simpl. apply classify_sentiment_label.
Qed.

Lemma line_results_nil_iff (clock : nat -> Z) (start : nat)
    (lines : list pystr) :
  flat_map (line_results lower sentiment_of clock) (enumerate start lines) = []
  <->
  forall line, In line lines ->
               blank line = true \/ sentiment_of (strip line) = None.
Proof.
  revert start. induction lines as [|line rest IH]; intro start.
  - simpl. split; [intros _ l [] | reflexivity].
  - rewrite enumerate_cons, flat_map_head. split.
    + intros H l [<- | Hl].
      * apply app_eq_nil in H. destruct H as [H _].
        destruct (line_outcome clock start line)
          as [(Hb & _)|[(_ & Hs & _)|(_ & b & s & _ & _ & E)]];
          [now left | now right | congruence].
      * apply app_eq_nil in H. destruct H as [_ H].
        apply (proj1 (IH (S start)) H l Hl).
    + intro H.
      assert (flat_map (line_results lower sentiment_of clock)
                       (enumerate (S start) rest) = []) as ->.
      { apply IH. intros l Hl. apply H. now right. }
      rewrite app_nil_r.
      destruct (H line (or_introl eq_refl)) as [Hb|Hs];
      destruct (line_outcome clock start line)
        as [(Hb' & E & _)|[(_ & _ & E & _)|(Hb' & b & s & Hs' & _ & _)]];
        try exact E; congruence.
Qed.

End MoreBatch.

(** X15: every line that is not blank ends either as a result or as a
    printed failure, never both and never neither: results and printed
    failures together number the lines that are not blank. *)
Theorem analyze_file_accounts_for_every_line (lower : pystr -> pystr)
    (sentiment_of : pystr -> option (Q * Q)) (clock : nat -> Z)
    (lines : list pystr) :
  exists results printed,
    analyze_file lower sentiment_of clock (Lines lines)
      = (inr results, printed) /\
    (List.length results + List.length printed
     = List.length lines - List.length (filter blank lines))%nat.
Proof.
  eexists. eexists. split; [apply analyze_file_lines|].
  apply outcome_count.
Qed.

(** X16: the line numbers of the results are all present and strictly
    increasing, and so are those of the printed failures; all of them lie
    between 1 and the number of lines. *)
Theorem analyze_file_line_numbers_increase (lower : pystr -> pystr)
    (sentiment_of : pystr -> option (Q * Q)) (clock : nat -> Z)
    (lines : list pystr) :
  exists results printed nums,
    analyze_file lower sentiment_of clock (Lines lines)
      = (inr results, printed) /\
    line_numbers results = map Some nums /\
    StronglySorted lt nums /\
    Forall (fun n => 1 <= n <= List.length lines)%nat nums /\
    StronglySorted lt (map fst printed) /\
    Forall (fun n => 1 <= n <= List.length lines)%nat (map fst printed).
Proof.
  destruct (line_numbers_sorted lower sentiment_of clock 1 lines)
    as (nums & Hmap & Hsorted & Hrange).
  destruct (reported_numbers_sorted lower sentiment_of clock 1 lines)
    as (Hpsorted & Hprange).
  eexists. eexists. exists nums.
  split; [apply analyze_file_lines|].
  split; [exact Hmap|]. split; [exact Hsorted|].
  split; [eapply Forall_impl; [|exact Hrange]; simpl; intros n Hn; lia|].
  split; [exact Hpsorted|].
  eapply Forall_impl; [|exact Hprange]. simpl. intros n Hn. lia.
Qed.

(** X17: a file can be analysed in two parts: the results and printed
    failures of [l1 ++ l2] are those of [l1] followed by those of [l2]
    analysed on its own (with the clock of its lines), moved down by the
    number of lines of [l1]. *)
Theorem analyze_file_splits (lower : pystr -> pystr)
    (sentiment_of : pystr -> option (Q * Q)) (clock : nat -> Z)
    (l1 l2 : list pystr) (r1 r2 : list AnalysisResult)
    (p1 p2 : list (nat * exn)) :
  analyze_file lower sentiment_of clock (Lines l1) = (inr r1, p1) ->
  analyze_file lower sentiment_of
               (fun n => clock (List.length l1 + n)%nat) (Lines l2)
    = (inr r2, p2) ->
  analyze_file lower sentiment_of clock (Lines (l1 ++ l2)) =
    (inr (r1 ++ map (shift_result (List.length l1)) r2),
     p1 ++ map (shift_report (List.length l1)) p2).
Proof.
  rewrite !analyze_file_lines. intros H1 H2.
  inversion H1; subst r1 p1. inversion H2; subst r2 p2.
  rewrite enumerate_app, !flat_map_app.
  rewrite (Nat.add_comm 1 (List.length l1)).
  now rewrite line_results_shift, line_reports_shift.
Qed.

Lemma analyze_file_splits_witness :
  analyze_file latin1_lower (raises_on hola) midnight
               (Lines ([file_line "bueno"; file_line ""]
                       ++ [file_line "hola"; file_line "malo"]))
  = (inr ([mkResult (py "bueno") (pyround 0.4 3) (pyround 0.0 3)
                    "POSITIVO" 0 (Some 1%nat)]
          ++ map (shift_result 2)
               [mkResult (py "malo") (pyround (-0.4) 3) (pyround 0.0 3)
                         "NEGATIVO" 0 (Some 2%nat)]),
     [] ++ map (shift_report 2) [(1%nat, ScorerError)]).
Proof.
  apply (analyze_file_splits latin1_lower (raises_on hola) midnight
           [file_line "bueno"; file_line ""]
           [file_line "hola"; file_line "malo"]);
    vm_compute; reflexivity.
Defined.

(** X18: [analyze_file] returns no result exactly when every line is blank
    or makes the base scorer raise; an empty file and a file of blank lines
    are such files. *)
Theorem analyze_file_empty_results (lower : pystr -> pystr)
    (sentiment_of : pystr -> option (Q * Q)) (clock : nat -> Z)
    (lines : list pystr) :
  exists results printed,
    analyze_file lower sentiment_of clock (Lines lines)
      = (inr results, printed) /\
    (results = [] <->
     forall line, In line lines ->
                  blank line = true \/ sentiment_of (strip line) = None).
Proof.
  eexists. eexists. split; [apply analyze_file_lines|].
  apply line_results_nil_iff.
Qed.

Lemma analyze_file_empty_results_witness :
  exists results printed,
    analyze_file latin1_lower no_signal midnight
                 (Lines [file_line ""; file_line "   "])
      = (inr results, printed) /\
    results = [].
Proof.
  destruct (analyze_file_empty_results latin1_lower no_signal midnight
              [file_line ""; file_line "   "])
    as (results & printed & Hrun & Hiff).
  exists results, printed. split; [exact Hrun|].
  apply Hiff. intros line [<- | [<- | []]]; left; vm_compute; reflexivity.
Defined.

(** ** More on summaries *)


Lemma count_label_le_length (label : string) (results : list AnalysisResult) :
  (count_label label results <= List.length results)%nat.
Proof.
  unfold count_label. rewrite list_sum_ones. apply filter_length_le.
Qed.

Lemma label_indicators (s : string) :
  ((if String.eqb s "POSITIVO" then 1 else 0)
   + (if String.eqb s "NEGATIVO" then 1 else 0)
   + (if String.eqb s "NEUTRAL" then 1 else 0) = 1 /\ is_label s)%nat \/
  ((if String.eqb s "POSITIVO" then 1 else 0)
   + (if String.eqb s "NEGATIVO" then 1 else 0)
   + (if String.eqb s "NEUTRAL" then 1 else 0) = 0 /\ ~ is_label s)%nat.
Proof.
  unfold is_label.
  destruct (String.eqb_spec s "POSITIVO") as [->|H1]; [left; simpl; tauto|].
  destruct (String.eqb_spec s "NEGATIVO") as [->|H2]; [left; simpl; tauto|].
  destruct (String.eqb_spec s "NEUTRAL") as [->|H3]; [left; simpl; tauto|].
  right. simpl. tauto.
Qed.

Lemma count_labels_le (results : list AnalysisResult) :
  (count_label "POSITIVO" results + count_label "NEGATIVO" results
   + count_label "NEUTRAL" results <= List.length results)%nat.
Proof.
  induction results as [|r rest IH]; [reflexivity|].
  rewrite !count_label_cons. simpl List.length.
  destruct (label_indicators (sentiment r)) as [[H _]|[H _]]; lia.
Qed.

Lemma count_labels_total_iff (results : list AnalysisResult) :
  (count_label "POSITIVO" results + count_label "NEGATIVO" results
   + count_label "NEUTRAL" results = List.length results)%nat <->
  Forall (fun r => is_label (sentiment r)) results.
Proof.
  split; [|apply count_labels_total].
  induction results as [|r rest IH]; [constructor|].
  rewrite !count_label_cons. simpl List.length. intro H.
  pose proof (count_labels_le rest) as Hle.
  destruct (label_indicators (sentiment r)) as [[Hi Hl]|[Hi _]]; [|lia].
  constructor; [exact Hl|]. apply IH. lia.
Qed.

Lemma percentage_in_range (count total : nat) :
  (0 < total)%nat -> (count <= total)%nat ->
  0 <= pyround (Q_of_nat count / Q_of_nat total * 100) 1 <= 100.
Proof.
  intros Hpos Hle.
  pose proof (Q_of_nat_pos _ Hpos) as HT.
  pose proof (Q_of_nat_nonneg count) as HC.
  pose proof (Q_of_nat_le _ _ Hle) as HCT.
  assert (0 <= Q_of_nat count / Q_of_nat total) as H0
    by (apply Qle_shift_div_l; [exact HT | lra]).
  assert (Q_of_nat count / Q_of_nat total <= 1) as H1
    by (apply Qle_shift_div_r; [exact HT | lra]).
  assert (pyround 0 1 == 0) as E0 by (vm_compute; reflexivity).
  assert (pyround 100 1 == 100) as E1 by (vm_compute; reflexivity).
  assert (0 <= Q_of_nat count / Q_of_nat total * 100) as G0 by lra.
  assert (Q_of_nat count / Q_of_nat total * 100 <= 100) as G1 by lra.
  pose proof (pyround_mono _ _ 1 G0). pose proof (pyround_mono _ _ 1 G1).
  split; lra.
Qed.

Lemma Q_of_nat_succ (n : nat) : Q_of_nat (S n) == Q_of_nat n + 1.
Proof.
  unfold Q_of_nat. rewrite Nat2Z.inj_succ. unfold Z.succ.
  rewrite inject_Z_plus. reflexivity.
Qed.

Lemma Qsum_signed_bound (l : list Q) :
  Forall (fun x => -1 <= x <= 1) l ->
  - Q_of_nat (List.length l) <= Qsum l <= Q_of_nat (List.length l).
Proof.
  induction 1 as [|x l [Hx1 Hx2] _ [IH1 IH2]].
  - simpl. split; apply Qle_refl.
  - cbn [Qsum List.length]. rewrite Q_of_nat_succ. split; lra.
Qed.

Lemma Qsum_unit_bound (l : list Q) :
  Forall (fun x => 0 <= x <= 1) l ->
  0 <= Qsum l <= Q_of_nat (List.length l).
Proof.
  induction 1 as [|x l [Hx1 Hx2] _ [IH1 IH2]].
  - simpl. split; apply Qle_refl.
  - cbn [Qsum List.length]. rewrite Q_of_nat_succ. split; lra.
Qed.

Lemma count_label_perm (label : string) (l l' : list AnalysisResult) :
  Permutation l l' -> count_label label l = count_label label l'.
Proof.
  induction 1 as [|x l l' _ IH|x y l|l l' l'' _ IH1 _ IH2].
  - reflexivity.
  - rewrite !count_label_cons. now rewrite IH.
  - rewrite !count_label_cons. lia.
  - now rewrite IH1.
Qed.

(** X19: the three counts of a summary never add up to more than the total;
    they add up to the total exactly when every result has one of the three
    labels, so a result with another label is in the total and in no count. *)
Theorem summary_counts (results : list AnalysisResult) :
  results <> [] ->
  exists s,
    get_analysis_summary results = inr (Some s) /\
    total_texts s = List.length results /\
    (positive_count s + negative_count s + neutral_count s
     <= total_texts s)%nat /\
    ((positive_count s + negative_count s + neutral_count s
      = total_texts s)%nat <->
     Forall (fun r => is_label (sentiment r)) results).
Proof.
  intro Hne. eexists.
  split; [apply get_analysis_summary_nonempty; exact Hne|].
  cbn [total_texts positive_count negative_count neutral_count].
  split; [reflexivity|].
  split; [apply count_labels_le | apply count_labels_total_iff].
Qed.

Lemma summary_counts_witness :
  exists s,
    get_analysis_summary unlabelled = inr (Some s) /\
    total_texts s = 1%nat /\
    (positive_count s + negative_count s + neutral_count s
     <= total_texts s)%nat /\
    ((positive_count s + negative_count s + neutral_count s
      = total_texts s)%nat <->
     Forall (fun r => is_label (sentiment r)) unlabelled).
Proof.
  apply (summary_counts unlabelled). discriminate.
Defined.

(** X20: each percentage of a summary lies between 0.0 and 100.0, whatever
    the labels of the results. *)
Theorem summary_percentages_in_range (results : list AnalysisResult) :
  results <> [] ->
  exists s,
    get_analysis_summary results = inr (Some s) /\
    0 <= positive_percentage s <= 100 /\
    0 <= negative_percentage s <= 100 /\
    0 <= neutral_percentage s <= 100.
Proof.
  intro Hne. eexists.
  split; [apply get_analysis_summary_nonempty; exact Hne|].
  cbn [positive_percentage negative_percentage neutral_percentage].
  assert (0 < List.length results)%nat as Hpos
    by (destruct results; [congruence | simpl; lia]).
  repeat split;
    apply percentage_in_range; try exact Hpos; apply count_label_le_length.
Qed.

Lemma summary_percentages_in_range_witness :
  exists s,
    get_analysis_summary one_of_each = inr (Some s) /\
    0 <= positive_percentage s <= 100 /\
    0 <= negative_percentage s <= 100 /\
    0 <= neutral_percentage s <= 100.
Proof.
  apply (summary_percentages_in_range one_of_each). discriminate.
Defined.

(** X21: the averages stay in the range of what they average: polarities in
    [-1, 1] give an average polarity in [-1, 1], subjectivities in [0, 1] an
    average subjectivity in [0, 1]. *)
Theorem summary_averages_in_range (results : list AnalysisResult) :
  results <> [] ->
  exists s,
    get_analysis_summary results = inr (Some s) /\
    (Forall (fun r => -1 <= polarity r <= 1) results ->
     -1 <= average_polarity s <= 1) /\
    (Forall (fun r => 0 <= subjectivity r <= 1) results ->
     0 <= average_subjectivity s <= 1).
Proof.
  intro Hne. eexists.
  split; [apply get_analysis_summary_nonempty; exact Hne|].
  cbn [average_polarity average_subjectivity].
  assert (0 < Q_of_nat (List.length results)) as HT.
  { apply Q_of_nat_pos. destruct results; [congruence | simpl; lia]. }
  split; intro Hall.
  - apply pyround_signed_unit_interval.
    assert (Forall (fun x => -1 <= x <= 1) (map polarity results)) as Hmap
      by (apply Forall_map; exact Hall).
    destruct (Qsum_signed_bound _ Hmap) as [Lo Hi].
    rewrite length_map in Lo, Hi.
    split.
    + apply Qle_shift_div_l; [exact HT | lra].
    + apply Qle_shift_div_r; [exact HT | lra].
  - apply pyround_unit_interval.
    assert (Forall (fun x => 0 <= x <= 1) (map subjectivity results)) as Hmap
      by (apply Forall_map; exact Hall).
    destruct (Qsum_unit_bound _ Hmap) as [Lo Hi].
    rewrite length_map in Hi.
    split.
    + apply Qle_shift_div_l; [exact HT | lra].
    + apply Qle_shift_div_r; [exact HT | lra].
Qed.

Lemma summary_averages_in_range_witness :
  exists s,
    get_analysis_summary two_results = inr (Some s) /\
    -1 <= average_polarity s <= 1 /\
    0 <= average_subjectivity s <= 1.
Proof.
  destruct (summary_averages_in_range two_results ltac:(discriminate))
    as (s & Hrun & Hpol & Hsub).
  exists s. split; [exact Hrun|]. split.
  - apply Hpol.
    repeat (constructor;
            [split; vm_compute; intro H; discriminate H|]).
    constructor.
  - apply Hsub.
    repeat (constructor;
            [split; vm_compute; intro H; discriminate H|]).
    constructor.
Defined.

Lemma keyword_count_counts_substrings_witness :
  In (py "bueno")
     (filter (fun word => contains word (py "rebuenos")) positive_keywords).
Proof.
  apply (keyword_count_counts_substrings positive_keywords (py "rebuenos")).
  split.
  - vm_compute. repeat (first [left; reflexivity | right]).
  - exists (py "re"), (py "s"). vm_compute. reflexivity.
Defined.

(** ** The prompt and the analyzer *)

Section Prompt.

Variable parse_int : pystr -> option Z.
Variable validate_file_path : pystr -> bool * list console_message.

Lemma get_user_input_string (keyboard : list keystroke)
    (printed printed' : list console_message) (v : user_value)
    (rest : list keystroke) :
  get_user_input parse_int validate_file_path keyboard StringInput printed
    = Some (v, printed', rest) ->
  exists skipped key,
    keyboard = map Typed skipped ++ key :: rest /\
    Forall (fun line => blank line = true) skipped /\
    ((key = Interrupt /\ v = UserNone /\
      printed' = printed ++ repeat EmptyEntryError (List.length skipped)
                         ++ [CancelledMessage]) \/
     (exists line,
        key = Typed line /\ blank line = false /\ v = UserText (strip line) /\
        printed' = printed ++ repeat EmptyEntryError (List.length skipped))).
Proof.
  revert printed. induction keyboard as [|key keyboard IH]; intros printed H.
  - discriminate H.
  - destruct key as [line|].
    + cbn [get_user_input] in H. rewrite truthy_strip_blank in H.
      destruct (blank line) eqn:Eb; cbn [negb] in H.
      * apply IH in H. destruct H as (skipped & key & -> & Hall & Hcase).
        exists (line :: skipped), key. split; [reflexivity|].
        split; [constructor; assumption|].
        cbn [List.length repeat].
        destruct Hcase as [(-> & -> & ->)|(l & -> & Hl & -> & ->)].
        -- left. repeat split. now rewrite <- !app_assoc.
        -- right. exists l. repeat split; [exact Hl|].
           now rewrite <- !app_assoc.
      * inversion H; subst. exists [], (Typed line).
        split; [reflexivity|]. split; [constructor|].
        right. exists line. repeat split; [exact Eb|].
        simpl. now rewrite app_nil_r.
    + cbn [get_user_input] in H. inversion H; subst.
      exists [], Interrupt. split; [reflexivity|]. split; [constructor|].
      left. now repeat split.
Qed.

End Prompt.



(** X25: a text that [get_user_input] returns in "string" mode is never
    rejected by the guard of [analyze_text], and it is stored in the result
    as it was returned: the prompt has stripped it already. *)
Theorem prompted_text_is_accepted (parse_int : pystr -> option Z)
    (validate_file_path : pystr -> bool * list console_message)
    (keyboard : list keystroke) (printed printed' : list console_message)
    (txt : pystr) (rest : list keystroke) :
  get_user_input parse_int validate_file_path keyboard StringInput printed
    = Some (UserText txt, printed', rest) ->
  blank txt = false /\
  forall lower sentiment_of now,
    analyze_text lower sentiment_of txt now <> inl ValueError /\
    forall r, analyze_text lower sentiment_of txt now = inr r -> text r = txt.
Proof.
  intro H. apply get_user_input_string in H.
  destruct H as (skipped & key & _ & _ & [(_ & E & _)|(line & _ & Hb & E & _)]);
    [discriminate E|].
  inversion E; subst txt.
  assert (blank (strip line) = false) as Hbs by now rewrite blank_strip.
  split; [exact Hbs|].
  intros lower sentiment_of now.
  rewrite (analyze_text_nonblank _ _ _ _ Hbs). rewrite strip_idem.
  destruct (sentiment_of (strip line)) as [[base subj]|].
  - split; [discriminate|]. intros r Hr. inversion Hr. reflexivity.
  - split; discriminate.
Qed.

Lemma prompted_text_is_accepted_witness :
  blank hola = false /\
  forall lower sentiment_of now,
    analyze_text lower sentiment_of hola now <> inl ValueError /\
    forall r, analyze_text lower sentiment_of hola now = inr r -> text r = hola.
Proof.
  apply (prompted_text_is_accepted no_int no_file
           [Typed (py "  "); Typed (py " hola ")] [] [EmptyEntryError] hola []).
  vm_compute. reflexivity.
Defined.

(** ** Binary64 rounding *)

Lemma two_neq_0 : ~ 2 == 0.
Proof. intro H. discriminate H. Qed.

Lemma pow2_pos (z : Z) : 0 < 2 ^ z.
Proof. apply Qpower_0_lt. reflexivity. Qed.

Lemma pow2_le (a b : Z) : (a <= b)%Z -> 2 ^ a <= 2 ^ b.
Proof. intro H. apply Qpower_le_compat_l; [exact H | discriminate]. Qed.

Lemma pow2_of_Z (n : Z) : (0 <= n)%Z -> inject_Z (2 ^ n) == 2 ^ n.
Proof. intro H. apply (Zpower_Qpower 2 n H). Qed.

Lemma binade_lower (x : Q) : 0 < x -> 2 ^ binade x <= x.
Proof.
  intro Hx. unfold binade.
  set (a := Z.log2 (Qnum x)). set (b := Z.log2 (Zpos (Qden x))).
  destruct (Qle_bool (2 ^ (a - b)) x) eqn:E; [now apply Qle_bool_iff|].
  assert (0 < Qnum x)%Z as Hn.
  { unfold Qlt in Hx. simpl in Hx. lia. }
  destruct (Z.log2_spec (Qnum x) Hn) as [Hlo _].
  destruct (Z.log2_spec (Zpos (Qden x)) ltac:(lia)) as [_ Hhi].
  fold a in Hlo. fold b in Hhi.
  assert (0 <= a)%Z as Ha by apply Z.log2_nonneg.
  assert (0 <= b)%Z as Hb by apply Z.log2_nonneg.
  replace (a - b - 1)%Z with (a + - (b + 1))%Z by ring.
  rewrite (Qpower_plus _ _ _ two_neq_0), Qpower_opp.
  rewrite <- (pow2_of_Z a Ha), <- (pow2_of_Z (b + 1) ltac:(lia)).
  replace (b + 1)%Z with (Z.succ b) by ring.
  assert (0 < 2 ^ Z.succ b)%Z as Hpos by (apply Z.pow_pos_nonneg; lia).
  destruct x as [n d]. simpl in Hlo, Hhi, Hn |- *.
  apply Qle_shift_div_r.
  - change 0 with (inject_Z 0). rewrite <- Zlt_Qlt. exact Hpos.
  - unfold Qle, Qmult, inject_Z. simpl.
    rewrite !Z.mul_1_r.
    apply Z.le_trans with (n * Zpos d)%Z; [nia|].
    apply Z.mul_le_mono_nonneg_l; lia.
Qed.

Lemma binade_upper (x : Q) : 0 < x -> x < 2 ^ (binade x + 1).
Proof.
  intro Hx. unfold binade.
  set (a := Z.log2 (Qnum x)). set (b := Z.log2 (Zpos (Qden x))).
  destruct (Qle_bool (2 ^ (a - b)) x) eqn:E.
  - assert (0 < Qnum x)%Z as Hn.
    { unfold Qlt in Hx. simpl in Hx. lia. }
    destruct (Z.log2_spec (Qnum x) Hn) as [_ Hhi].
    destruct (Z.log2_spec (Zpos (Qden x)) ltac:(lia)) as [Hlo _].
    fold a in Hhi. fold b in Hlo.
    assert (0 <= a)%Z as Ha by apply Z.log2_nonneg.
    assert (0 <= b)%Z as Hb by apply Z.log2_nonneg.
    replace (a - b + 1)%Z with ((a + 1) + - b)%Z by ring.
    rewrite (Qpower_plus _ _ _ two_neq_0), Qpower_opp.
    rewrite <- (pow2_of_Z (a + 1) ltac:(lia)), <- (pow2_of_Z b Hb).
    replace (a + 1)%Z with (Z.succ a) by ring.
    assert (0 < 2 ^ b)%Z as Hpos by (apply Z.pow_pos_nonneg; lia).
    destruct x as [n d]. simpl in Hlo, Hhi, Hn |- *.
    apply Qlt_shift_div_l.
    + change 0 with (inject_Z 0). rewrite <- Zlt_Qlt. exact Hpos.
    + unfold Qlt, Qmult, inject_Z. simpl.
      rewrite !Z.mul_1_r.
      apply Z.le_lt_trans with (n * Zpos d)%Z; [|nia].
      apply Z.mul_le_mono_nonneg_l; lia.
  - replace (a - b - 1 + 1)%Z with (a - b)%Z by ring.
    apply Qnot_le_lt. intro H. apply Qle_bool_iff in H. congruence.
Qed.

Lemma binade_le (x : Q) (e : Z) : 0 < x -> x < 2 ^ (e + 1) -> (binade x <= e)%Z.
Proof.
  intros Hx Hlt.
  pose proof (binade_lower x Hx) as Hlo.
  assert (2 ^ binade x < 2 ^ (e + 1)) as H by (eapply Qle_lt_trans; eassumption).
  apply Qpower_lt_compat_l_inv in H; [lia | reflexivity].
Qed.

Lemma spacing_pos (x : Q) : 0 < spacing x.
Proof. apply pow2_pos. Qed.

Lemma spacing_le (x : Q) (e : Z) :
  (-1022 <= e)%Z -> ~ x == 0 -> Qabs x < 2 ^ (e + 1) ->
  spacing x <= 2 ^ (e - 52).
Proof.
  intros He Hx Hlt. unfold spacing. apply pow2_le.
  assert (0 < Qabs x) as Hpos.
  { destruct (Qlt_le_dec 0 (Qabs x)) as [H|H]; [exact H|].
    exfalso. apply Hx. apply Qabs_Qle_condition in H. destruct H.
    apply Qle_antisym; lra. }
  pose proof (binade_le _ _ Hpos Hlt). lia.
Qed.

(** Rounding to binary64 moves a number by at most half the spacing. *)
Lemma binary64_error (x : Q) (e : Z) :
  (-1022 <= e)%Z -> Qabs x < 2 ^ (e + 1) ->
  Qabs (binary64 x - x) <= 2 ^ (e - 52) * (1 # 2).
Proof.
  intros He Hlt. unfold binary64.
  destruct (Qeq_bool x 0) eqn:E.
  - apply Qeq_bool_iff in E.
    assert (0 - x == 0) as -> by (rewrite E; reflexivity).
    pose proof (pow2_pos (e - 52)). simpl. lra.
  - assert (~ x == 0) as Hx by (intro H; apply Qeq_bool_iff in H; congruence).
    pose proof (spacing_pos x) as Hs.
    pose proof (spacing_le x e He Hx Hlt) as Hle.
    destruct (round_half_even_near (x / spacing x)) as [Lo Hi].
    set (k := inject_Z (round_half_even (x / spacing x))) in *.
    assert (x / spacing x * spacing x == x) as Ex by (field; lra).
    assert ((k - (1 # 2)) * spacing x <= x) as L1.
    { rewrite <- Ex at 2. apply Qmult_le_compat_r; lra. }
    assert (x <= (k + (1 # 2)) * spacing x) as L2.
    { rewrite <- Ex at 1. apply Qmult_le_compat_r; lra. }
    apply Qabs_Qle_condition. split; lra.
Qed.

Lemma round_half_even_nonneg (x : Q) : 0 <= x -> (0 <= round_half_even x)%Z.
Proof.
  intro H. apply (round_half_even_mono 0 x H).
Qed.

Lemma binary64_nonneg (x : Q) : 0 <= x -> 0 <= binary64 x.
Proof.
  intro H. unfold binary64.
  destruct (Qeq_bool x 0); [apply Qle_refl|].
  pose proof (spacing_pos x) as Hs.
  apply Qmult_le_0_compat; [|lra].
  change 0 with (inject_Z 0). rewrite <- Zle_Qle.
  apply round_half_even_nonneg.
  apply Qle_shift_div_l; [exact Hs | lra].
Qed.

(** Known values: the floats of 0.1 and of 1/3, a number that is a float
    already, a tie between two floats (to the even one), and the smallest
    subnormal number. *)
Lemma binary64_known_values :
  binary64 0.1 == 3602879701896397 # 36028797018963968 /\
  binary64 (1 # 3) == 6004799503160661 # 18014398509481984 /\
  binary64 100.5 == 100.5 /\
  binary64 (1 + 2 ^ (-53)) == 1 /\
  binary64 (1 + 3 * 2 ^ (-53)) == 1 + 2 ^ (-51) /\
  binary64 (2 ^ (-1074)) == 2 ^ (-1074) /\
  binary64 (3 * 2 ^ (-1075)) == 2 ^ (-1073).
Proof.
  repeat split; vm_compute; reflexivity.
Qed.

(** ** The percentages as floats *)

Lemma ratio_unit (count total : nat) :
  (0 < total)%nat -> (count <= total)%nat ->
  0 <= Q_of_nat count / Q_of_nat total <= 1.
Proof.
  intros Hpos Hle.
  pose proof (Q_of_nat_pos _ Hpos) as HT.
  pose proof (Q_of_nat_nonneg count) as HC.
  pose proof (Q_of_nat_le _ _ Hle) as HCT.
  split.
  - apply Qle_shift_div_l; [exact HT | lra].
  - apply Qle_shift_div_r; [exact HT | lra].
Qed.

(** One percentage: the float nearest to a decimal [k / 10], where [k] is
    within a half (and the rounding of two operations) of the exact
    per-mille. *)
Lemma percentage64_near (x : Q) :
  0 <= x <= 1 ->
  exists k : Z,
    round64 (binary64 (binary64 x * 100)) 1 = binary64 (inject_Z k / 10) /\
    (0 <= k <= 1000)%Z /\
    Qabs (inject_Z k - x * 1000) <= (1 # 2) + (1 # 1000000) /\
    Qabs (binary64 (inject_Z k / 10) - inject_Z k / 10) <= 2 ^ (-47).
Proof.
  intros [Hx0 Hx1].
  assert (2 ^ (0 - 52) * (1 # 2) == 1 # 9007199254740992) as P53
    by (vm_compute; reflexivity).
  assert (2 ^ (6 - 52) * (1 # 2) == 1 # 140737488355328) as P47
    by (vm_compute; reflexivity).
  assert (2 ^ (-47) == 1 # 140737488355328) as P47'
    by (vm_compute; reflexivity).
  assert (2 ^ (0 + 1) == 2) as T1 by (vm_compute; reflexivity).
  assert (2 ^ (6 + 1) == 128) as T7 by (vm_compute; reflexivity).
  (* the quotient *)
  assert (Qabs x < 2 ^ (0 + 1)) as Bx.
  { rewrite T1, (Qabs_pos x Hx0). lra. }
  pose proof (binary64_error x 0 ltac:(lia) Bx) as Eq.
  rewrite P53 in Eq. apply Qabs_Qle_condition in Eq. destruct Eq as [Eq1 Eq2].
  pose proof (binary64_nonneg x Hx0) as Hq0.
  set (q := binary64 x) in *.
  (* the product with 100 *)
  assert (0 <= q * 100) as Hy0' by lra.
  assert (Qabs (q * 100) < 2 ^ (6 + 1)) as By.
  { rewrite T7, (Qabs_pos _ Hy0'). lra. }
  pose proof (binary64_error (q * 100) 6 ltac:(lia) By) as Ey.
  rewrite P47 in Ey. apply Qabs_Qle_condition in Ey. destruct Ey as [Ey1 Ey2].
  pose proof (binary64_nonneg (q * 100) Hy0') as Hy0.
  set (y := binary64 (q * 100)) in *.
  (* the decimal *)
  destruct (round_half_even_near (y * 10)) as [Lo Hi].
  pose proof (round_half_even_nonneg (y * 10) ltac:(lra)) as Hk0.
  exists (round_half_even (y * 10)).
  set (k := round_half_even (y * 10)) in *.
  assert (k <= 1000)%Z as Hk1.
  { assert (inject_Z k < inject_Z 1001) as H
      by (change (inject_Z 1001) with 1001; lra).
    rewrite <- Zlt_Qlt in H. lia. }
  assert (0 <= inject_Z k <= 1000) as [Hk0' Hk1'].
  { change 0 with (inject_Z 0). change 1000 with (inject_Z 1000).
    rewrite <- !Zle_Qle. lia. }
  split; [reflexivity|]. split; [lia|]. split.
  - apply Qabs_Qle_condition. split; lra.
  - rewrite P47', <- P47.
    apply binary64_error; [lia|].
    rewrite T7, Qabs_pos; [|apply Qle_shift_div_l; lra].
    apply Qlt_shift_div_r; lra.
Qed.

(** The three percentages of counts that add up to the total. *)
Lemma percentages64_close (xp xn xu : Q) :
  0 <= xp <= 1 -> 0 <= xn <= 1 -> 0 <= xu <= 1 -> xp + xn + xu == 1 ->
  exists kp kn ku : Z,
    round64 (binary64 (binary64 xp * 100)) 1 = binary64 (inject_Z kp / 10) /\
    round64 (binary64 (binary64 xn * 100)) 1 = binary64 (inject_Z kn / 10) /\
    round64 (binary64 (binary64 xu * 100)) 1 = binary64 (inject_Z ku / 10) /\
    (999 <= kp + kn + ku <= 1001)%Z /\
    Qabs (round64 (binary64 (binary64 xp * 100)) 1
          + round64 (binary64 (binary64 xn * 100)) 1
          + round64 (binary64 (binary64 xu * 100)) 1 - 100)
      <= 0.1 + 3 * 2 ^ (-47).
Proof.
  intros Hp Hn Hu Hsum.
  destruct (percentage64_near xp Hp) as (kp & -> & _ & Np & Fp).
  destruct (percentage64_near xn Hn) as (kn & -> & _ & Nn & Fn).
  destruct (percentage64_near xu Hu) as (ku & -> & _ & Nu & Fu).
  exists kp, kn, ku.
  split; [reflexivity|]. split; [reflexivity|]. split; [reflexivity|].
  apply Qabs_Qle_condition in Np, Nn, Nu, Fp, Fn, Fu.
  assert (inject_Z (kp + kn + ku) == inject_Z kp + inject_Z kn + inject_Z ku)
    as EK by (rewrite !inject_Z_plus; reflexivity).
  assert (999 <= kp + kn + ku <= 1001)%Z as HK.
  { assert (inject_Z 998 < inject_Z (kp + kn + ku)) as H1
      by (rewrite EK; change (inject_Z 998) with 998; lra).
    assert (inject_Z (kp + kn + ku) < inject_Z 1002) as H2
      by (rewrite EK; change (inject_Z 1002) with 1002; lra).
    rewrite <- Zlt_Qlt in H1, H2. lia. }
  split; [exact HK|].
  destruct HK as [HK1 HK2].
  rewrite Zle_Qle in HK1, HK2. rewrite EK in HK1, HK2.
  change (inject_Z 999) with 999 in HK1.
  change (inject_Z 1001) with 1001 in HK2.
  pose proof (pow2_pos (-47)) as Hpow.
  apply Qabs_Qle_condition.
  set (eps := 2 ^ (-47)) in *. clearbody eps.
  assert (inject_Z kp / 10 * 10 == inject_Z kp) as Dp by field.
  assert (inject_Z kn / 10 * 10 == inject_Z kn) as Dn by field.
  assert (inject_Z ku / 10 * 10 == inject_Z ku) as Du by field.
  set (dp := inject_Z kp / 10) in *.
  set (dn := inject_Z kn / 10) in *.
  set (du := inject_Z ku / 10) in *.
  clearbody dp dn du.
  split; lra.
Qed.

Lemma get_analysis_percentages64_nonempty (results : list AnalysisResult) :
  results <> [] ->
  let total := List.length results in
  get_analysis_percentages64 results =
    inr (Some
      (round64 (binary64 (binary64 (Q_of_nat (count_label "POSITIVO" results)
                                    / Q_of_nat total) * 100)) 1,
       round64 (binary64 (binary64 (Q_of_nat (count_label "NEGATIVO" results)
                                    / Q_of_nat total) * 100)) 1,
       round64 (binary64 (binary64 (Q_of_nat (count_label "NEUTRAL" results)
                                    / Q_of_nat total) * 100)) 1)).
Proof.
  intros Hne total.
  assert (0 < Q_of_nat total) as Hpos.
  { apply Q_of_nat_pos. subst total. destruct results; [congruence|simpl; lia]. }
  assert (forall a, pydiv64 a total
                    = inr (binary64 (Q_of_nat a / Q_of_nat total))) as Hdiv.
  { intro a. unfold pydiv64.
    destruct (Qeq_bool (Q_of_nat total) 0) eqn:E; [|reflexivity].
    apply Qeq_bool_iff in E. rewrite E in Hpos. now apply Qlt_irrefl in Hpos. }
  destruct results as [|r rest]; [congruence|].
  unfold get_analysis_percentages64. fold total.
  rewrite !Hdiv. reflexivity.
Qed.

Lemma labelled_percentages64 (results : list AnalysisResult) :
  results <> [] ->
  Forall (fun r => is_label (sentiment r)) results ->
  exists p n u (kp kn ku : Z),
    get_analysis_percentages64 results = inr (Some (p, n, u)) /\
    p = binary64 (inject_Z kp / 10) /\
    n = binary64 (inject_Z kn / 10) /\
    u = binary64 (inject_Z ku / 10) /\
    (999 <= kp + kn + ku <= 1001)%Z /\
    Qabs (p + n + u - 100) <= 0.1 + 3 * 2 ^ (-47).
Proof.
  intros Hne Hlab.
  assert (0 < List.length results)%nat as Hpos
    by (destruct results; [congruence | simpl; lia]).
  destruct (percentages64_close
              (Q_of_nat (count_label "POSITIVO" results)
               / Q_of_nat (List.length results))
              (Q_of_nat (count_label "NEGATIVO" results)
               / Q_of_nat (List.length results))
              (Q_of_nat (count_label "NEUTRAL" results)
               / Q_of_nat (List.length results)))
    as (kp & kn & ku & Ep & En & Eu & HK & Hsum).
  - apply ratio_unit; [exact Hpos | apply count_label_le_length].
  - apply ratio_unit; [exact Hpos | apply count_label_le_length].
  - apply ratio_unit; [exact Hpos | apply count_label_le_length].
  - pose proof (Q_of_nat_pos _ Hpos) as HT.
    transitivity ((Q_of_nat (count_label "POSITIVO" results)
                   + Q_of_nat (count_label "NEGATIVO" results)
                   + Q_of_nat (count_label "NEUTRAL" results))
                  / Q_of_nat (List.length results)); [field; lra|].
    rewrite <- !Q_of_nat_add, (count_labels_total _ Hlab). field. lra.
  - eexists. eexists. eexists. exists kp, kn, ku.
    split; [apply get_analysis_percentages64_nonempty; exact Hne|].
    split; [exact Ep|]. split; [exact En|]. split; [exact Eu|].
    split; [exact HK | exact Hsum].
Qed.

(** C9, as stated, fails: with one result of each label the three
    percentages are the float 33.3, whose value is just below 33.3; their
    sum, exact or added as floats, is further than 0.1 from 100.0. *)
Lemma percentages_of_thirds_miss_tolerance :
  one_of_each <> [] /\
  Forall (fun r => is_label (sentiment r)) one_of_each /\
  exists p n u,
    get_analysis_percentages64 one_of_each = inr (Some (p, n, u)) /\
    p == binary64 33.3 /\ n == binary64 33.3 /\ u == binary64 33.3 /\
    p == 2343279181116211 # 70368744177664 /\
    ~ Qabs (p + n + u - 100) <= 0.1 /\
    ~ Qabs (add64 (add64 p n) u - 100) <= 0.1.
Proof.
  split; [discriminate|].
  split; [repeat (constructor; [vm_compute; tauto|]); constructor|].
  eexists. eexists. eexists.
  split; [vm_compute; reflexivity|].
  split; [vm_compute; reflexivity|].
  split; [vm_compute; reflexivity|].
  split; [vm_compute; reflexivity|].
  split; [vm_compute; reflexivity|].
  split; vm_compute; intro H; apply H; reflexivity.
Qed.

(** C9, amended: for a non-empty list of results whose labels are POSITIVO,
    NEGATIVO or NEUTRAL, each percentage is the float nearest to a number of
    one decimal, these three decimals add up to 99.9, 100.0 or 100.1, and
    the percentages themselves add up to 100.0 within 0.1 plus the
    representation error of three floats, at most 3 * 2^-47. *)
Theorem summary_percentages_sum_binary64 (results : list AnalysisResult) :
  results <> [] ->
  Forall (fun r => is_label (sentiment r)) results ->
  exists p n u (kp kn ku : Z),
    get_analysis_percentages64 results = inr (Some (p, n, u)) /\
    p = binary64 (inject_Z kp / 10) /\
    n = binary64 (inject_Z kn / 10) /\
    u = binary64 (inject_Z ku / 10) /\
    (999 <= kp + kn + ku <= 1001)%Z /\
    Qabs (p + n + u - 100) <= 0.1 + 3 * 2 ^ (-47).
Proof.
  intros Hne Hlab. exact (labelled_percentages64 results Hne Hlab).
Qed.

Lemma summary_percentages_sum_binary64_witness :
  exists p n u (kp kn ku : Z),
    get_analysis_percentages64 one_of_each = inr (Some (p, n, u)) /\
    p = binary64 (inject_Z kp / 10) /\
    n = binary64 (inject_Z kn / 10) /\
    u = binary64 (inject_Z ku / 10) /\
    (999 <= kp + kn + ku <= 1001)%Z /\
    Qabs (p + n + u - 100) <= 0.1 + 3 * 2 ^ (-47).
Proof.
  apply (summary_percentages_sum_binary64 one_of_each).
  - discriminate.
  - repeat (constructor; [vm_compute; tauto|]). constructor.
Defined.

(** X22: the total, the three counts and the three percentages (as the
    floats the code computes) do not depend on the order of the results. *)
Theorem summary_counts_ignore_order (results results' : list AnalysisResult) :
  Permutation results results' ->
  results <> [] ->
  exists s s',
    get_analysis_summary results = inr (Some s) /\
    get_analysis_summary results' = inr (Some s') /\
    total_texts s = total_texts s' /\
    positive_count s = positive_count s' /\
    negative_count s = negative_count s' /\
    neutral_count s = neutral_count s' /\
    get_analysis_percentages64 results = get_analysis_percentages64 results'.
Proof.
  intros Hperm Hne.
  assert (results' <> []) as Hne'.
  { intro E. subst results'. apply Permutation_sym, Permutation_nil in Hperm.
    contradiction. }
  eexists. eexists.
  split; [apply get_analysis_summary_nonempty; exact Hne|].
  split; [apply get_analysis_summary_nonempty; exact Hne'|].
  cbn [total_texts positive_count negative_count neutral_count].
  rewrite (get_analysis_percentages64_nonempty _ Hne).
  rewrite (get_analysis_percentages64_nonempty _ Hne').
  rewrite <- (Permutation_length Hperm).
  rewrite <- !(count_label_perm _ _ _ Hperm).
  repeat split; reflexivity.
Qed.

Lemma summary_counts_ignore_order_witness :
  exists s s',
    get_analysis_summary two_results = inr (Some s) /\
    get_analysis_summary two_results_swapped = inr (Some s') /\
    total_texts s = total_texts s' /\
    positive_count s = positive_count s' /\
    negative_count s = negative_count s' /\
    neutral_count s = neutral_count s' /\
    get_analysis_percentages64 two_results
      = get_analysis_percentages64 two_results_swapped.
Proof.
  apply (summary_counts_ignore_order two_results two_results_swapped).
  - apply perm_swap.
  - discriminate.
Defined.

(** X23: what [analyze_file] returns can always be summarised: every result
    has one of the three labels, so [get_analysis_summary] does not raise on
    the results, and for at least one result the counts add up to the number
    of results and the percentages, as floats, to 100.0 within 0.1 plus the
    representation error of three floats. *)
Theorem batch_results_summarise (lower : pystr -> pystr)
    (sentiment_of : pystr -> option (Q * Q)) (clock : nat -> Z)
    (lines : list pystr) :
  exists results printed,
    analyze_file lower sentiment_of clock (Lines lines)
      = (inr results, printed) /\
    Forall (fun r => is_label (sentiment r)) results /\
    (results = [] -> get_analysis_summary results = inr None) /\
    (results <> [] ->
     exists s p n u,
       get_analysis_summary results = inr (Some s) /\
       total_texts s = List.length results /\
       (positive_count s + negative_count s + neutral_count s
        = List.length results)%nat /\
       get_analysis_percentages64 results = inr (Some (p, n, u)) /\
       Qabs (p + n + u - 100) <= 0.1 + 3 * 2 ^ (-47)).
Proof.
  eexists. eexists. split; [apply analyze_file_lines|].
  pose proof (line_results_labelled lower sentiment_of clock 1 lines) as Hlab.
  set (results :=
         flat_map (line_results lower sentiment_of clock) (enumerate 1 lines))
    in *.
  split; [exact Hlab|]. split.
  - intros ->. reflexivity.
  - intro Hne.
    destruct (labelled_percentages64 results Hne Hlab)
      as (p & n & u & kp & kn & ku & Hrun & _ & _ & _ & _ & Hsum).
    eexists. exists p, n, u.
    split; [apply get_analysis_summary_nonempty; exact Hne|].
    cbn [total_texts positive_count negative_count neutral_count].
    split; [reflexivity|].
    split; [apply count_labels_total; exact Hlab|].
    split; [exact Hrun | exact Hsum].
Qed.

Lemma batch_results_summarise_witness :
  exists results printed,
    analyze_file latin1_lower no_signal midnight (Lines four_lines)
      = (inr results, printed) /\
    Forall (fun r => is_label (sentiment r)) results /\
    (results = [] -> get_analysis_summary results = inr None) /\
    (results <> [] ->
     exists s p n u,
       get_analysis_summary results = inr (Some s) /\
       total_texts s = List.length results /\
       (positive_count s + negative_count s + neutral_count s
        = List.length results)%nat /\
       get_analysis_percentages64 results = inr (Some (p, n, u)) /\
       Qabs (p + n + u - 100) <= 0.1 + 3 * 2 ^ (-47)).
Proof.
  exact (batch_results_summarise latin1_lower no_signal midnight four_lines).
Defined.
